(** * track-your-finance-fe: the derived figures of the property page

    A shallow embedding of the client-side computations of
    [src/pages/PropertyDetail.tsx] (the date-range filter over the fetched
    real-estate transactions and the income / expense / balance sums), of the
    timestamp the transaction form sends ([RealEstateTransactionModal],
    [handleSubmit]), and of the category breakdown that the specification
    describes.

    JavaScript values are modelled as the language defines them: a [number]
    is an IEEE 754 binary64 value (Rocq's primitive [float]), a [Date] is a
    time value in milliseconds since the epoch or the invalid date, an
    optional field is an [option]. *)

From Stdlib Require Import Floats ZArith List Bool Lia Ascii String.
From stdpp Require Import base option list strings gmap.
Import ListNotations.

(** ** JavaScript values *)

Module JS.

(** *** Numbers *)

Definition number := float.

(** [ToBoolean] on a number: [0], [-0] and [NaN] are falsy. *)
Definition ToBoolean_number (x : number) : bool :=
  negb (PrimFloat.eqb x 0%float || PrimFloat.is_nan x).

(** [ToBoolean] on a string: only the empty string is falsy. *)
Definition ToBoolean_string (s : string) : bool :=
  negb (String.eqb s "").

(** [x || d] where [x] is an optional number: [undefined] and the falsy
    numbers give [d]. *)
Definition number_or (x : option number) (d : number) : number :=
  match x with
  | Some v => if ToBoolean_number v then v else d
  | None => d
  end.

(** *** Dates *)

(** A [Date] object holds a time value: an integral number of milliseconds
    since 1970-01-01T00:00:00Z, or [NaN] (the invalid date). *)
Inductive Date : Type :=
  | InvalidDate
  | TimeValue (t : Z).

(** [a < b] and [a > b] on [Date] objects compare the time values as
    numbers; a comparison with [NaN] is false. *)
Definition Date_lt (a b : Date) : bool :=
  match a, b with
  | TimeValue x, TimeValue y => (x <? y)%Z
  | _, _ => false
  end.

Definition Date_gt (a b : Date) : bool :=
  match a, b with
  | TimeValue x, TimeValue y => (y <? x)%Z
  | _, _ => false
  end.

Section Calendar.
Local Open Scope Z_scope.

Definition msPerDay : Z := 86400000.

(** Day number of a proleptic Gregorian date ([m] in 1..12, [d] from 1),
    counted from 1970-01-01. *)
Definition days_from_civil (y m d : Z) : Z :=
  let y' := if m <=? 2 then y - 1 else y in
  let era := y' / 400 in
  let yoe := y' - era * 400 in
  let mp := if 2 <? m then m - 3 else m + 9 in
  let doy := (153 * mp + 2) / 5 + d - 1 in
  let doe := yoe * 365 + yoe / 4 - yoe / 100 + doy in
  era * 146097 + doe - 719468.

(** The inverse: year, month (1..12) and day of month of a day number. *)
Definition civil_from_days (z : Z) : Z * Z * Z :=
  let z' := z + 719468 in
  let era := z' / 146097 in
  let doe := z' - era * 146097 in
  let yoe := (doe - doe / 1460 + doe / 36524 - doe / 146096) / 365 in
  let doy := doe - (365 * yoe + yoe / 4 - yoe / 100) in
  let mp := (5 * doy + 2) / 153 in
  let d := doy - (153 * mp + 2) / 5 + 1 in
  let m := if mp <? 10 then mp + 3 else mp - 9 in
  let y := yoe + era * 400 in
  (if m <=? 2 then y + 1 else y, m, d).

Definition isLeapYear (y : Z) : bool :=
  ((y mod 4 =? 0) && negb (y mod 100 =? 0)) || (y mod 400 =? 0).

Definition daysInMonth (y m : Z) : Z :=
  if m =? 2 then (if isLeapYear y then 29 else 28)
  else if (m =? 4) || (m =? 6) || (m =? 9) || (m =? 11) then 30
  else 31.

(** [TimeClip]: time values beyond 8.64e15 ms are not representable. *)
Definition TimeClip (t : Z) : Date :=
  if Z.abs t <=? 8640000000000000 then TimeValue t else InvalidDate.

Definition MakeTime (h mi s ms : Z) : Z :=
  h * 3600000 + mi * 60000 + s * 1000 + ms.

Definition MakeDate (day time : Z) : Z := day * msPerDay + time.

(** The calendar day (UTC) a time value falls on, and the time within it. *)
Definition Day (t : Z) : Z := t / msPerDay.
Definition TimeWithinDay (t : Z) : Z := t mod msPerDay.

End Calendar.

(** *** The date-time string format

    [isoDate] reads the UTC forms of the ECMAScript date-time string format
    that the application meets: [YYYY-MM-DD] (the value of an
    [<input type="date">], midnight UTC) and [YYYY-MM-DDTHH:mm:ss.sssZ]
    (what [toISOString] prints), the milliseconds being optional, for the
    days that exist in the calendar. Every other string is outside this
    reader, which gives the invalid date for it; hosts read more than this
    (other offsets and precisions, and some roll a day past the end of its
    month over), so nothing below rests on a string it refuses. *)

Definition digit (c : ascii) : option Z :=
  let n := Z.of_N (Ascii.N_of_ascii c) in
  if ((48 <=? n) && (n <=? 57))%Z then Some (n - 48)%Z else None.

(** Read exactly [n] decimal digits. *)
Fixpoint digits (n : nat) (acc : Z) (cs : list ascii) : option (Z * list ascii) :=
  match n with
  | O => Some (acc, cs)
  | S n' =>
      match cs with
      | c :: cs' => v ← digit c; digits n' (10 * acc + v)%Z cs'
      | [] => None
      end
  end.

Definition expect (c : ascii) (cs : list ascii) : option (list ascii) :=
  match cs with
  | c' :: cs' => if Ascii.eqb c c' then Some cs' else None
  | [] => None
  end.

Definition isoCalendarDate (cs : list ascii) : option (Z * list ascii) :=
  '(y, cs) ← digits 4 0%Z cs;
  cs ← expect "-"%char cs;
  '(m, cs) ← digits 2 0%Z cs;
  cs ← expect "-"%char cs;
  '(d, cs) ← digits 2 0%Z cs;
  if ((1 <=? m) && (m <=? 12) && (1 <=? d) && (d <=? daysInMonth y m))%Z
  then Some (days_from_civil y m d, cs)
  else None.

Definition isoTimeOfDay (cs : list ascii) : option (Z * list ascii) :=
  '(h, cs) ← digits 2 0%Z cs;
  cs ← expect ":"%char cs;
  '(mi, cs) ← digits 2 0%Z cs;
  cs ← expect ":"%char cs;
  '(s, cs) ← digits 2 0%Z cs;
  '(ms, cs) ← match expect "."%char cs with
              | Some cs' => digits 3 0%Z cs'
              | None => Some (0%Z, cs)
              end;
  cs ← expect "Z"%char cs;
  if ((h <=? 23) && (mi <=? 59) && (s <=? 59))%Z
     || ((h =? 24) && (mi =? 0) && (s =? 0) && (ms =? 0))%Z
  then Some (MakeTime h mi s ms, cs)
  else None.

Definition isoTimeValue (cs : list ascii) : option Z :=
  '(day, cs) ← isoCalendarDate cs;
  match cs with
  | [] => Some (MakeDate day 0)
  | _ =>
      cs ← expect "T"%char cs;
      '(time, cs) ← isoTimeOfDay cs;
      match cs with
      | [] => Some (MakeDate day time)
      | _ => None
      end
  end.

(** [new Date(s)] on those forms. *)
Definition isoDate (s : string) : Date :=
  match isoTimeValue (list_ascii_of_string s) with
  | Some t => TimeClip t
  | None => InvalidDate
  end.

(** Decimal digits of a non-negative integer, zero-padded to [n] places. *)
Fixpoint pad (n : nat) (v : Z) (acc : list ascii) : list ascii :=
  match n with
  | O => acc
  | S n' =>
      pad n' (v / 10)%Z
        (Ascii.ascii_of_N (Z.to_N (48 + v mod 10)) :: acc)
  end.

(** [Date.prototype.toISOString]: a [RangeError] on the invalid date
    ([None]), otherwise the UTC fields, with a signed six-digit year
    outside 0..9999. *)
Definition toISOString (d : Date) : option string :=
  match d with
  | InvalidDate => None
  | TimeValue t =>
      let '(y, m, dd) := civil_from_days (Day t) in
      let w := TimeWithinDay t in
      let year :=
        if ((0 <=? y) && (y <=? 9999))%Z then pad 4 y []
        else (if (y <? 0)%Z then "-"%char else "+"%char) :: pad 6 (Z.abs y) [] in
      Some (string_of_list_ascii
              (year ++ "-"%char :: pad 2 m [] ++ "-"%char :: pad 2 dd []
                 ++ "T"%char :: pad 2 (w / 3600000)%Z []
                 ++ ":"%char :: pad 2 (w / 60000 mod 60)%Z []
                 ++ ":"%char :: pad 2 (w / 1000 mod 60)%Z []
                 ++ "."%char :: pad 3 (w mod 1000)%Z [] ++ ["Z"%char]))
  end.

End JS.

(** ** The property page: [src/pages/PropertyDetail.tsx] *)

Module PropertyDetail.
Import JS.

(** Modelled from the spec: the generated declarations
    [ModelsRealEstateTransactionType] and [ModelsRealEstateTransaction]
    (module [../generated]) are not among the sources. The transaction type
    has the two members [INCOME] and [EXPENSE]; a transaction carries the
    fields the page reads, each of them optional, as its uses show
    ([t.amount || 0], [!t.transaction_date], [transaction.name || 'Untitled']). *)
Inductive ModelsRealEstateTransactionType : Type :=
  | RealEstateIncome
  | RealEstateExpense.

Record ModelsRealEstateTransaction : Type := {
  id : option string;
  name : option string;
  type : option ModelsRealEstateTransactionType;
  amount : option number;
  transaction_date : option string
}.

(** The state of the component that the derived figures read. *)
Record State : Type := {
  transactions : list ModelsRealEstateTransaction;
  filterFromDate : string;
  filterToDate : string
}.

Definition setFilterDates (st : State) (from to : string) : State :=
  {| transactions := transactions st;
     filterFromDate := from;
     filterToDate := to |}.

Definition setTransactions (st : State) (l : list ModelsRealEstateTransaction) : State :=
  {| transactions := l;
     filterFromDate := filterFromDate st;
     filterToDate := filterToDate st |}.

(** [t.type === ty] *)
Definition type_is (ty : ModelsRealEstateTransactionType)
    (t : ModelsRealEstateTransaction) : bool :=
  match type t, ty with
  | Some RealEstateIncome, RealEstateIncome => true
  | Some RealEstateExpense, RealEstateExpense => true
  | _, _ => false
  end.

(** [l.filter(t => t.type === ty).reduce((sum, t) => sum + (t.amount || 0), 0)],
    the expression behind all four sums of the page. *)
Definition sumOfType (ty : ModelsRealEstateTransactionType)
    (l : list ModelsRealEstateTransaction) : number :=
  fold_left (fun sum t => (sum + number_or (amount t) 0)%float)
    (List.filter (type_is ty) l) 0%float.

Section Derived.

(** The [Date] constructor applied to a string, a builtin of the host. *)
Variable newDate : string -> Date.
Variable st : State.

(** The callback of [transactions.filter] (lines 163-174). *)
Definition inDateRange (t : ModelsRealEstateTransaction) : bool :=
  match transaction_date t with
  | None => true
  | Some s =>
      if negb (ToBoolean_string s) then true
      else
        let transactionDate := newDate s in
        let fromDate :=
          if ToBoolean_string (filterFromDate st)
          then Some (newDate (filterFromDate st)) else None in
        let toDate :=
          if ToBoolean_string (filterToDate st)
          then Some (newDate (filterToDate st)) else None in
        if match fromDate with
           | Some d => Date_lt transactionDate d
           | None => false
           end then false
        else if match toDate with
                | Some d => Date_gt transactionDate d
                | None => false
                end then false
        else true
  end.

Definition filteredTransactions : list ModelsRealEstateTransaction :=
  List.filter inDateRange (transactions st).

Definition totalIncome : number := sumOfType RealEstateIncome (transactions st).
Definition totalExpense : number := sumOfType RealEstateExpense (transactions st).

Definition filteredIncome : number := sumOfType RealEstateIncome filteredTransactions.
Definition filteredExpense : number := sumOfType RealEstateExpense filteredTransactions.

Definition balance : number := (totalIncome - totalExpense)%float.

(** [filteredIncome - filteredExpense], as the "Filtered Balance" card
    prints it (lines 609-610). *)
Definition filteredBalance : number := (filteredIncome - filteredExpense)%float.

(** *** The vocabulary of the specification *)

(** The instant an entry occurred at: none when [transaction_date] is
    missing or empty, and none when it does not denote a date. *)
Definition occurredAt (t : ModelsRealEstateTransaction) : option Z :=
  match transaction_date t with
  | Some s =>
      if ToBoolean_string s
      then match newDate s with TimeValue z => Some z | InvalidDate => None end
      else None
  | None => None
  end.

(** A bound of the period: absent when the input is empty (or holds no
    date), otherwise the instant it denotes. *)
Definition bound (s : string) : option Z :=
  if ToBoolean_string s
  then match newDate s with TimeValue z => Some z | InvalidDate => None end
  else None.

End Derived.

(** The retention rule in the words of the specification (section 4.1),
    over optional instants. *)
Definition retained (from to occurred : option Z) : Prop :=
  match occurred with
  | None => True
  | Some d =>
      (from = None \/ exists f, from = Some f /\ (f <= d)%Z)
      /\ (to = None \/ exists u, to = Some u /\ (d <= u)%Z)
  end.

#[global] Instance ModelsRealEstateTransactionType_eq_dec :
  EqDecision ModelsRealEstateTransactionType.
Proof. solve_decision. Defined.

(** The words of the specification (section 4.2): the entries whose kind
    is [k], ... *)
Definition entries_of_kind (k : ModelsRealEstateTransactionType)
    (l : list ModelsRealEstateTransaction) : list ModelsRealEstateTransaction :=
  filter (fun t => type t = Some k) l.

(** ... the amount of an entry: its number, and [0] when it has none
    (no amount, or an amount that is not a number), ... *)
Definition amount_value (t : ModelsRealEstateTransaction) : number :=
  match amount t with
  | Some v => if PrimFloat.is_nan v then 0%float else v
  | None => 0%float
  end.

(** ... and the sum of the amounts of a list of entries, in list order. *)
Definition sum_amounts (l : list ModelsRealEstateTransaction) : number :=
  fold_left (fun sum t => (sum + amount_value t)%float) l 0%float.

(** An amount is negative, against the invariant [amount >= 0] of the data
    model (section 3). *)
Definition negative_amount (t : ModelsRealEstateTransaction) : bool :=
  match amount t with
  | Some v => (v <? 0)%float
  | None => false
  end.

(** A binary64 value that is [+0], a positive number or [+Infinity]. *)
Definition nonnegative (x : spec_float) : Prop :=
  match x with
  | S754_zero false | S754_infinity false | S754_finite false _ _ => True
  | _ => False
  end.

(** An amount is an infinity. *)
Definition infinite_amount (t : ModelsRealEstateTransaction) : bool :=
  match amount t with
  | Some v => PrimFloat.is_infinity v
  | None => false
  end.

End PropertyDetail.

(** ** The transaction form: [RealEstateTransactionModal] *)

Module RealEstateTransactionModal.
Import JS.

(** [new Date(formData.transaction_date + 'T12:00:00.000Z').toISOString()]
    in [handleSubmit]: the timestamp sent for the calendar date chosen in
    the form; [None] is the [RangeError] of [toISOString]. *)
Definition fullDateTime (newDate : string -> Date) (transaction_date : string)
    : option string :=
  toISOString (newDate (transaction_date ++ "T12:00:00.000Z")%string).

End RealEstateTransactionModal.

(** ** The category breakdown (specification, sections 3 and 4.3) *)

Module Breakdown.
Import JS.

(** Modelled from the spec: the page sources only print a breakdown that
    the backend sends ([category.percentage?.toFixed(1)]); the function that
    computes it is not part of them. The data model and [breakdown] below
    follow sections 3 and 4.3 of the specification. *)
Inductive Kind : Type :=
  | Income
  | Expense.

Definition Kind_eqb (a b : Kind) : bool :=
  match a, b with
  | Income, Income | Expense, Expense => true
  | _, _ => false
  end.

Record LedgerEntry : Type := {
  id : string;
  amount : number;
  kind : Kind;
  categoryId : option string;
  occurredAt : Z
}.

Record Category : Type := {
  category_id : string;
  category_name : string;
  category_kind : Kind;
  category_color : string
}.

Record CategoryBreakdownEntry : Type := {
  entry_categoryId : option string;
  entry_name : string;
  entry_color : string;
  entry_kind : Kind;
  entry_amount : number;
  transactionCount : nat;
  percentage : number
}.

(** What a group accumulates: the sum and the count of its entries, and how
    many of them are of kind [Income] (for the majority rule). *)
Record Group : Type := {
  group_amount : number;
  group_count : nat;
  group_income : nat
}.

Definition emptyGroup : Group :=
  {| group_amount := 0%float; group_count := 0; group_income := 0 |}.

Definition addToGroup (e : LedgerEntry) (g : Group) : Group :=
  {| group_amount := (group_amount g + amount e)%float;
     group_count := S (group_count g);
     group_income :=
       match kind e with
       | Income => S (group_income g)
       | Expense => group_income g
       end |}.

(** Modelled from the spec: "the sum of all amounts sharing that group's
    kind within the filtered set". *)
Definition totalForKind (k : Kind) (entries : list LedgerEntry) : number :=
  fold_left (fun sum e => if Kind_eqb (kind e) k then (sum + amount e)%float else sum)
    entries 0%float.

Section Breakdown.

(** The specification fixes neither the colour of the "Unknown" bucket ("a
    fixed neutral value") nor the kind of a bucket whose entries are evenly
    mixed; both are taken as given. *)
Variable neutralColor : string.
Variable tieKind : Kind.

Variable categories : gmap string Category.

(** Modelled from the spec: the group of an entry is its category, and the
    "Unknown" bucket ([None]) when the category is absent or not in the
    dictionary. *)
Definition bucket (e : LedgerEntry) : option string :=
  match categoryId e with
  | Some c =>
      match categories !! c with
      | Some _ => Some c
      | None => None
      end
  | None => None
  end.

Definition groupEntries (entries : list LedgerEntry) : gmap (option string) Group :=
  fold_left
    (fun groups e =>
       <[bucket e := addToGroup e (default emptyGroup (groups !! bucket e))]> groups)
    entries ∅.

(** Modelled from the spec: the kind of a group is the kind of its
    category, and for the "Unknown" bucket the kind of its entries, the
    majority when they are mixed. *)
Definition groupKind (key : option string) (g : Group) : Kind :=
  match key ≫= (categories !!.) with
  | Some c => category_kind c
  | None =>
      let expenses := group_count g - group_income g in
      if expenses <? group_income g then Income
      else if group_income g <? expenses then Expense
      else tieKind
  end.

(** Modelled from the spec: "[amount / totalForKind * 100] ... if that
    per-kind total is zero, [percentage = 0]". *)
Definition percentageOf (amount total : number) : number :=
  if PrimFloat.eqb total 0%float then 0%float
  else (amount / total * 100)%float.

Definition breakdownEntry (entries : list LedgerEntry)
    (kg : option string * Group) : CategoryBreakdownEntry :=
  let '(key, g) := kg in
  let k := groupKind key g in
  let c := key ≫= (categories !!.) in
  {| entry_categoryId := key;
     entry_name := from_option category_name "Unknown" c;
     entry_color := from_option category_color neutralColor c;
     entry_kind := k;
     entry_amount := group_amount g;
     transactionCount := group_count g;
     percentage := percentageOf (group_amount g) (totalForKind k entries) |}.

Definition breakdown (entries : list LedgerEntry) : list CategoryBreakdownEntry :=
  breakdownEntry entries <$> map_to_list (groupEntries entries).

End Breakdown.

End Breakdown.

(** ** Sample data *)

Module Scenario.
Import JS PropertyDetail.

Definition entry (ty : ModelsRealEstateTransactionType) (a : number)
    (date : option string) : ModelsRealEstateTransaction :=
  {| id := None; name := None; type := Some ty; amount := Some a;
     transaction_date := date |}.

Definition page (l : list ModelsRealEstateTransaction) (from to : string) : State :=
  {| transactions := l; filterFromDate := from; filterToDate := to |}.

(** The transaction the form creates when 2024-01-31 is picked as its date. *)
Definition rent_jan31 : ModelsRealEstateTransaction :=
  entry RealEstateIncome 1200%float
    (RealEstateTransactionModal.fullDateTime isoDate "2024-01-31").

(** Two income entries whose amounts are the two infinities. *)
Definition infinities : list ModelsRealEstateTransaction :=
  [ entry RealEstateIncome infinity None;
    entry RealEstateIncome neg_infinity None ].

(** An entry without an amount. *)
Definition no_amount : ModelsRealEstateTransaction :=
  {| id := None; name := None; type := Some RealEstateIncome; amount := None;
     transaction_date := None |}.

(** An income entry filed under a category of kind [Expense]. *)
Definition repairs : Breakdown.Category :=
  {| Breakdown.category_id := "repairs";
     Breakdown.category_name := "Repairs";
     Breakdown.category_kind := Breakdown.Expense;
     Breakdown.category_color := "#ef4444" |}.

Definition refund : Breakdown.LedgerEntry :=
  {| Breakdown.id := "1"; Breakdown.amount := 100%float;
     Breakdown.kind := Breakdown.Income;
     Breakdown.categoryId := Some "repairs"%string;
     Breakdown.occurredAt := 19753 |}.

Definition refund_row : Breakdown.CategoryBreakdownEntry :=
  {| Breakdown.entry_categoryId := Some "repairs"%string;
     Breakdown.entry_name := "Repairs";
     Breakdown.entry_color := "#ef4444";
     Breakdown.entry_kind := Breakdown.Expense;
     Breakdown.entry_amount := 100%float;
     Breakdown.transactionCount := 1;
     Breakdown.percentage := 0%float |}.

End Scenario.

(** ** More of the property page *)

Module PropertyDetailView.
Import JS PropertyDetail.

(** The [onClick] of the "Clear Filters" button (lines 581-584). *)
Definition clearFilters (st : State) : State := setFilterDates st "" "".

(** [(filterFromDate || filterToDate) && ...]: the three "Filtered" cards
    are rendered (line 593). *)
Definition showsFilteredSums (st : State) : bool :=
  ToBoolean_string (filterFromDate st) || ToBoolean_string (filterToDate st).

(** What the transactions table renders (lines 618-668): a row per filtered
    transaction, or one of two notices. *)
Inductive TableBody : Type :=
  | Rows (l : list ModelsRealEstateTransaction)
  | Notice (text : string).

Definition tableBody (newDate : string -> Date) (st : State) : TableBody :=
  if 0 <? length (filteredTransactions newDate st)
  then Rows (filteredTransactions newDate st)
  else Notice (if length (transactions st) =? 0
               then "No transactions for this property"
               else "No transactions found for the selected date range").

(** How two optional bounds compare: [wider_from a b] when the lower bound
    [a] admits every instant that [b] admits, and likewise for upper
    bounds. *)
Definition wider_from (a b : option Z) : Prop :=
  match a, b with
  | None, _ => True
  | Some x, Some y => (x <= y)%Z
  | Some _, None => False
  end.

Definition wider_to (a b : option Z) : Prop :=
  match a, b with
  | None, _ => True
  | Some x, Some y => (y <= x)%Z
  | Some _, None => False
  end.

End PropertyDetailView.

(** ** More of the transaction form *)

Module RealEstateTransactionForm.
Import JS.

Record FormData : Type := {
  name : string;
  property_id : string;
  type : PropertyDetail.ModelsRealEstateTransactionType;
  amount : string;
  description : string;
  transaction_date : string
}.

(** Modelled from the spec: the generated declaration
    [ModelsCreateRealEstateTransactionRequest] is not among the sources; its
    fields are those [handleSubmit] fills in. *)
Record ModelsCreateRealEstateTransactionRequest : Type := {
  request_name : string;
  request_property_id : string;
  request_type : PropertyDetail.ModelsRealEstateTransactionType;
  request_amount : number;
  request_description : option string;
  request_transaction_date : string
}.

Definition isDigit (c : ascii) : bool :=
  match digit c with Some _ => true | None => false end.

(** The longest run of decimal digits at the front is skipped. *)
Fixpoint skipDigits (cs : list ascii) : list ascii :=
  match cs with
  | c :: cs' => if isDigit c then skipDigits cs' else cs
  | [] => []
  end.

(** [/^\d*\.?\d*$/.test(value)] *)
Definition amountPattern (value : string) : bool :=
  match skipDigits (list_ascii_of_string value) with
  | [] => true
  | c :: rest =>
      if Ascii.eqb c "."
      then match skipDigits rest with [] => true | _ :: _ => false end
      else false
  end.

(** [handleAmountChange] (lines 775-780). *)
Definition handleAmountChange (formData : FormData) (value : string) : FormData :=
  if amountPattern value
  then {| name := name formData; property_id := property_id formData;
          type := type formData; amount := value;
          description := description formData;
          transaction_date := transaction_date formData |}
  else formData.

(** [s.split('T')[0]]: what precedes the first [T]. *)
Fixpoint beforeT (cs : list ascii) : list ascii :=
  match cs with
  | c :: cs' => if Ascii.eqb c "T" then [] else c :: beforeT cs'
  | [] => []
  end.

(** The date the form shows for a transaction being edited (lines 703-705);
    [today] stands for [format(new Date(), 'yyyy-MM-dd')]. *)
Definition formDate (today : string) (transaction_date : option string) : string :=
  match transaction_date with
  | Some s =>
      if ToBoolean_string s
      then string_of_list_ascii (beforeT (list_ascii_of_string s))
      else today
  | None => today
  end.

(** The value of an [<input type="date">] for a day of the years 0..9999:
    [YYYY-MM-DD]. *)
Definition dateValue (y m d : Z) : string :=
  string_of_list_ascii
    (pad 4 y [] ++ "-"%char :: pad 2 m [] ++ "-"%char :: pad 2 d []).

(** What a submission comes to: a message in the form's error box, or the
    request handed to [realEstateApi.transactions]. *)
Inductive Submission : Type :=
  | Rejected (message : string)
  | Request (data : ModelsCreateRealEstateTransactionRequest).

Section Submit.

(** Builtins of the host: [String.prototype.trim], [parseFloat], the [Date]
    constructor, and the message of the [RangeError] that [toISOString]
    throws. *)
Variable trim : string -> string.
Variable parseFloat : string -> number.
Variable newDate : string -> Date.
Variable rangeErrorMessage : string.

(** [handleSubmit] up to the request (lines 721-773): the three checks, the
    timestamp, and the message the [catch] block shows. *)
Definition handleSubmit (formData : FormData) : Submission :=
  if negb (ToBoolean_string (trim (name formData)))
  then Rejected "Transaction name is required"
  else if negb (ToBoolean_string (property_id formData))
  then Rejected "Property is required"
  else if negb (ToBoolean_string (amount formData))
          || PrimFloat.leb (parseFloat (amount formData)) 0%float
  then Rejected "Amount must be greater than 0"
  else
    match RealEstateTransactionModal.fullDateTime newDate (transaction_date formData) with
    | None =>
        Rejected (if ToBoolean_string rangeErrorMessage then rangeErrorMessage
                  else "Failed to save transaction")
    | Some fullDateTime =>
        Request
          {| request_name := trim (name formData);
             request_property_id := property_id formData;
             request_type := type formData;
             request_amount := parseFloat (amount formData);
             request_description :=
               if ToBoolean_string (trim (description formData))
               then Some (trim (description formData)) else None;
             request_transaction_date := fullDateTime |}
    end.

End Submit.

End RealEstateTransactionForm.

Example isoDate_day : JS.isoDate "2024-01-31" = JS.TimeValue 1706659200000.
Proof. reflexivity. Qed.

Example isoDate_noon :
  JS.isoDate "2024-01-31T12:00:00.000Z" = JS.TimeValue 1706702400000.
Proof. reflexivity. Qed.

Example toISOString_noon :
  JS.toISOString (JS.TimeValue 1706702400000) = Some "2024-01-31T12:00:00.000Z".
Proof. reflexivity. Qed.

Example fullDateTime_jan31 :
  RealEstateTransactionModal.fullDateTime JS.isoDate "2024-01-31"
  = Some "2024-01-31T12:00:00.000Z".
Proof. reflexivity. Qed.

(** ** The period filter *)

Section PeriodFilter.
Import JS PropertyDetail.

Variable newDate : string -> Date.

Lemma Date_lt_false_iff (a b : Date) :
  Date_lt a b = false <->
  match a, b with
  | TimeValue x, TimeValue y => (y <= x)%Z
  | _, _ => True
  end.
Proof.
  destruct a as [|x], b as [|y]; simpl; try tauto.
  rewrite Z.ltb_ge. tauto.
Qed.

Lemma Date_gt_false_iff (a b : Date) :
  Date_gt a b = false <->
  match a, b with
  | TimeValue x, TimeValue y => (x <= y)%Z
  | _, _ => True
  end.
Proof.
  destruct a as [|x], b as [|y]; simpl; try tauto.
  rewrite Z.ltb_ge. tauto.
Qed.

(** The callback reads the two bounds of the state and nothing else of it. *)
Lemma inDateRange_setTransactions st l t :
  inDateRange newDate (setTransactions st l) t = inDateRange newDate st t.
Proof. reflexivity. Qed.

(** An entry without a (non-empty) [transaction_date] passes the callback. *)
Lemma inDateRange_no_date st t :
  transaction_date t = None \/ transaction_date t = Some ""%string ->
  inDateRange newDate st t = true.
Proof.
  unfold inDateRange. intros [-> | ->]; reflexivity.
Qed.

(** The callback decides the retention rule of the specification. *)
Lemma inDateRange_retained st t :
  inDateRange newDate st t = true <->
  retained (bound newDate (filterFromDate st)) (bound newDate (filterToDate st))
           (occurredAt newDate t).
Proof.
  unfold inDateRange, occurredAt, bound, retained.
  destruct (transaction_date t) as [s|]; [|tauto].
  destruct (ToBoolean_string s); simpl; [|tauto].
  destruct (newDate s) as [|d] eqn:Hd.
  { destruct (ToBoolean_string (filterFromDate st)), (ToBoolean_string (filterToDate st));
      simpl; tauto. }
  destruct (ToBoolean_string (filterFromDate st));
    [destruct (newDate (filterFromDate st)) as [|f]|];
    (destruct (ToBoolean_string (filterToDate st));
      [destruct (newDate (filterToDate st)) as [|u]|]); simpl;
    repeat match goal with
      | |- context [(?a <? ?b)%Z] => case (Z.ltb_spec a b); intros ?
      end;
    (split; [intros Hkeep; try discriminate; split; eauto
            | intros [[Hf|(f' & Hf & ?)] [Hu|(u' & Hu & ?)]];
              try reflexivity; simplify_eq; lia]).
Qed.

Lemma filter_idempotent {A} (f : A -> bool) (l : list A) :
  List.filter f (List.filter f l) = List.filter f l.
Proof.
  induction l as [|a l IH]; simpl; [reflexivity|].
  destruct (f a) eqn:Hfa; simpl; [rewrite Hfa, IH|]; auto.
Qed.

Lemma filter_sublist {A} (f : A -> bool) (l : list A) :
  sublist (List.filter f l) l.
Proof.
  induction l as [|a l IH]; simpl; [constructor|].
  destruct (f a); constructor; exact IH.
Qed.

(** Over instants the filter is the retention rule: an entry of the list is
    in the output exactly when it has no date, or its instant is not before
    [from] (when [from] is given) and not after [to] (when [to] is given);
    an entry without a [transaction_date] is retained whatever the bounds
    are. *)
Lemma filteredTransactions_retains_iff :
  forall (st : State) (t : ModelsRealEstateTransaction),
    (In t (filteredTransactions newDate st) <->
     In t (transactions st) /\
     retained (bound newDate (filterFromDate st))
              (bound newDate (filterToDate st))
              (occurredAt newDate t))
    /\ (occurredAt newDate t = None ->
        (In t (filteredTransactions newDate st) <-> In t (transactions st))).
Proof.
  intros st t. unfold filteredTransactions. split.
  - rewrite filter_In, inDateRange_retained. tauto.
  - intros Hnone. rewrite filter_In, inDateRange_retained, Hnone. simpl. tauto.
Qed.

(** C6. Filtering the filter's output again, with the same bounds, changes
    nothing. *)
Theorem filteredTransactions_idempotent :
  forall st : State,
    filteredTransactions newDate
      (setTransactions st (filteredTransactions newDate st))
    = filteredTransactions newDate st.
Proof.
  intros st. unfold filteredTransactions at 1. simpl.
  apply filter_idempotent.
Qed.

(** C7. The filter's output is a subsequence of the transactions: the
    retained entries in their original relative order, none repeated. *)
Theorem filteredTransactions_sublist :
  forall st : State,
    sublist (filteredTransactions newDate st) (transactions st).
Proof. intros st. apply filter_sublist. Qed.

End PeriodFilter.

(** ** The sums *)

Section Sums.
Import JS PropertyDetail.

Variable newDate : string -> Date.

(** No transaction is of both types. *)
Lemma type_is_exclusive t :
  type_is RealEstateIncome t && type_is RealEstateExpense t = false.
Proof. unfold type_is. destruct (type t) as [[]|]; reflexivity. Qed.

(** A sum only sees the entries of its type. *)
Lemma sumOfType_filter ty l :
  sumOfType ty (List.filter (type_is ty) l) = sumOfType ty l.
Proof. unfold sumOfType. now rewrite filter_idempotent. Qed.

(** An entry that is not of type [ty] can be dropped from the list. *)
Lemma sumOfType_skip ty l1 t l2 :
  type_is ty t = false ->
  sumOfType ty (l1 ++ t :: l2) = sumOfType ty (l1 ++ l2).
Proof.
  intros Ht. unfold sumOfType.
  rewrite !List.filter_app. simpl. now rewrite Ht.
Qed.

(** C4. The balance is the income total minus the expense total, for the
    whole list and for the filtered one, and it can be negative. *)
Theorem balance_is_income_minus_expense :
  (forall st : State,
      balance st = (totalIncome st - totalExpense st)%float
      /\ filteredBalance newDate st
         = (filteredIncome newDate st - filteredExpense newDate st)%float)
  /\ exists st : State, (balance st <? 0)%float = true.
Proof.
  split; [intros st; split; reflexivity|].
  exists {| transactions :=
              [ {| id := None; name := None; type := Some RealEstateExpense;
                   amount := Some 40%float; transaction_date := None |} ];
            filterFromDate := ""; filterToDate := "" |}.
  reflexivity.
Qed.

(** C5. With no transactions every figure is zero and both lists are empty. *)
Theorem empty_transactions_all_zero :
  forall from to : string,
    let st := {| transactions := []; filterFromDate := from; filterToDate := to |} in
    totalIncome st = 0%float
    /\ totalExpense st = 0%float
    /\ balance st = 0%float
    /\ length (transactions st) = 0
    /\ filteredIncome newDate st = 0%float
    /\ filteredExpense newDate st = 0%float
    /\ filteredBalance newDate st = 0%float
    /\ length (filteredTransactions newDate st) = 0.
Proof. intros from to. repeat split. Qed.

(** C9. The top-level totals and the balance read the complete transaction
    list: they are the same for every choice of the filter bounds. *)
Theorem totals_ignore_filter_dates :
  forall (st : State) (from to : string),
    totalIncome (setFilterDates st from to) = totalIncome st
    /\ totalExpense (setFilterDates st from to) = totalExpense st
    /\ balance (setFilterDates st from to) = balance st
    /\ transactions (setFilterDates st from to) = transactions st.
Proof. intros st from to. repeat split. Qed.

End Sums.

(** ** The bounds at the granularity of calendar days *)

Section DayBoundary.
Import JS PropertyDetail.

Variable newDate : string -> Date.

(** The [from] check against midnight of the entry's own day: with only a
    [from] bound that denotes midnight of a day, an entry of that day
    passes, whatever its time of day. *)
Lemma inDateRange_from_midnight st t s day w :
  transaction_date t = Some s -> ToBoolean_string s = true ->
  newDate s = TimeValue (MakeDate day w) -> (0 <= w)%Z ->
  ToBoolean_string (filterFromDate st) = true ->
  newDate (filterFromDate st) = TimeValue (MakeDate day 0) ->
  ToBoolean_string (filterToDate st) = false ->
  inDateRange newDate st t = true.
Proof.
  intros Ht Hs Hd Hw Hf Hfrom Hto. unfold inDateRange.
  rewrite Ht, Hs, Hd, Hf, Hfrom, Hto. simpl.
  unfold MakeDate. case (Z.ltb_spec _ _); [lia|reflexivity].
Qed.

(** The [to] check against midnight of the entry's own day: with only a
    [to] bound that denotes midnight of a day, an entry of that day passes
    only when its own time of day is midnight. *)
Lemma inDateRange_to_midnight st t s day w :
  transaction_date t = Some s -> ToBoolean_string s = true ->
  newDate s = TimeValue (MakeDate day w) -> (0 <= w)%Z ->
  ToBoolean_string (filterFromDate st) = false ->
  ToBoolean_string (filterToDate st) = true ->
  newDate (filterToDate st) = TimeValue (MakeDate day 0) ->
  inDateRange newDate st t = (w =? 0)%Z.
Proof.
  intros Ht Hs Hd Hw Hf Hto Hbound. unfold inDateRange.
  rewrite Ht, Hs, Hd, Hf, Hto, Hbound. simpl.
  unfold MakeDate.
  case (Z.ltb_spec _ _); case (Z.eqb_spec w 0); intros; try reflexivity; lia.
Qed.

(** X1. With only a [from] date, an entry whose timestamp falls on that
    day is listed, whatever its time of day. *)
Theorem from_day_inclusive :
  forall (st : State) (t : ModelsRealEstateTransaction) (s : string) (day w : Z),
    transaction_date t = Some s -> ToBoolean_string s = true ->
    newDate s = TimeValue (MakeDate day w) -> (0 <= w)%Z ->
    ToBoolean_string (filterFromDate st) = true ->
    newDate (filterFromDate st) = TimeValue (MakeDate day 0) ->
    ToBoolean_string (filterToDate st) = false ->
    inDateRange newDate st t = true.
Proof. intros st t s day w. apply inDateRange_from_midnight. Qed.

(** X2. With only a [to] date, an entry whose timestamp falls on that day
    is listed exactly when its time of day is midnight UTC. *)
Theorem to_day_only_midnight :
  forall (st : State) (t : ModelsRealEstateTransaction) (s : string) (day w : Z),
    transaction_date t = Some s -> ToBoolean_string s = true ->
    newDate s = TimeValue (MakeDate day w) -> (0 <= w)%Z ->
    ToBoolean_string (filterFromDate st) = false ->
    ToBoolean_string (filterToDate st) = true ->
    newDate (filterToDate st) = TimeValue (MakeDate day 0) ->
    inDateRange newDate st t = (w =? 0)%Z.
Proof. intros st t s day w. apply inDateRange_to_midnight. Qed.

End DayBoundary.

(** C1. The transaction that the form creates for 2024-01-31 carries the
    timestamp 2024-01-31T12:00:00.000Z, which falls on the same calendar
    day as the bound 2024-01-31. The filter keeps it when 2024-01-31 is the
    [from] date and drops it when 2024-01-31 is the [to] date: the [to]
    bound is not inclusive for it. *)
Theorem to_date_entry_is_dropped :
  PropertyDetail.transaction_date Scenario.rent_jan31
    = Some "2024-01-31T12:00:00.000Z"%string
  /\ (exists t u,
         JS.isoDate "2024-01-31T12:00:00.000Z" = JS.TimeValue t
         /\ JS.isoDate "2024-01-31" = JS.TimeValue u
         /\ JS.Day t = JS.Day u)
  /\ PropertyDetail.filteredTransactions JS.isoDate
       (Scenario.page [Scenario.rent_jan31] "2024-01-31" "")
     = [Scenario.rent_jan31]
  /\ PropertyDetail.filteredTransactions JS.isoDate
       (Scenario.page [Scenario.rent_jan31] "" "2024-01-31")
     = []
  /\ PropertyDetail.filteredTransactions JS.isoDate
       (Scenario.page [Scenario.rent_jan31] "2024-01-31" "2024-01-31")
     = [].
Proof.
  split; [reflexivity|]. split.
  { exists 1706702400000%Z, 1706659200000%Z. repeat split. }
  repeat split.
Qed.

(** Calendar days are ordered as their instants are. *)
Lemma Day_le (a b : Z) : (a <= b)%Z -> (JS.Day a <= JS.Day b)%Z.
Proof. intros H. unfold JS.Day, JS.msPerDay. apply Z.div_le_mono; lia. Qed.

(** C2. The retention rule over calendar dates holds of the filter in one
    direction only. Every entry the filter retains satisfies it, and an
    entry without a date is retained whatever the bounds are. But the
    transaction that the form creates for 2024-01-31 is dated on the [to]
    date 2024-01-31, so the rule retains it, and the filter does not. *)
Theorem calendar_rule_fails_on_the_to_day :
  (forall (newDate : string -> JS.Date) (st : PropertyDetail.State) t,
      In t (PropertyDetail.filteredTransactions newDate st) ->
      In t (PropertyDetail.transactions st)
      /\ PropertyDetail.retained
           (JS.Day <$> PropertyDetail.bound newDate (PropertyDetail.filterFromDate st))
           (JS.Day <$> PropertyDetail.bound newDate (PropertyDetail.filterToDate st))
           (JS.Day <$> PropertyDetail.occurredAt newDate t))
  /\ (forall (newDate : string -> JS.Date) (st : PropertyDetail.State) t,
         PropertyDetail.occurredAt newDate t = None ->
         In t (PropertyDetail.transactions st) ->
         In t (PropertyDetail.filteredTransactions newDate st))
  /\ (let st := Scenario.page [Scenario.rent_jan31] "" "2024-01-31" in
      In Scenario.rent_jan31 (PropertyDetail.transactions st)
      /\ PropertyDetail.retained
           (JS.Day <$> PropertyDetail.bound JS.isoDate (PropertyDetail.filterFromDate st))
           (JS.Day <$> PropertyDetail.bound JS.isoDate (PropertyDetail.filterToDate st))
           (JS.Day <$> PropertyDetail.occurredAt JS.isoDate Scenario.rent_jan31)
      /\ ~ In Scenario.rent_jan31 (PropertyDetail.filteredTransactions JS.isoDate st)).
Proof.
  split; [|split].
  - intros newDate st t Hin.
    apply filter_In in Hin as [Hin Hkeep]. split; [exact Hin|].
    apply inDateRange_retained in Hkeep. unfold PropertyDetail.retained in *.
    destruct (PropertyDetail.occurredAt newDate t) as [d|]; simpl; [|exact I].
    destruct Hkeep as [Hf Hu]. split.
    + destruct Hf as [-> | (f & -> & Hf)]; [left; reflexivity|].
      right. exists (JS.Day f). split; [reflexivity|apply Day_le, Hf].
    + destruct Hu as [-> | (u & -> & Hu)]; [left; reflexivity|].
      right. exists (JS.Day u). split; [reflexivity|apply Day_le, Hu].
  - intros newDate st t Hnone Hin.
    apply filter_In. split; [exact Hin|].
    apply inDateRange_retained. rewrite Hnone. exact I.
  - vm_compute. split; [left; reflexivity|]. split; [|tauto].
    split; [left; reflexivity|].
    right. exists 19753%Z. split; [reflexivity|discriminate].
Qed.

(** ** Binary64 arithmetic behind the sums *)

Section Binary64.
Local Open Scope Z_scope.

Local Abbreviation emin := (SpecFloat.emin prec emax).

Lemma shr_m_of_loc m l : shr_m (shr_record_of_loc m l) = m.
Proof. destruct l as [|[]]; reflexivity. Qed.

(** One shift drops one binary digit of a mantissa that has more than one. *)
Lemma shr_1_digits mrs p :
  shr_m mrs = Zpos p -> 1 < Zpos (digits2_pos p) ->
  exists p', shr_m (shr_1 mrs) = Zpos p'
             /\ Zpos (digits2_pos p') = Zpos (digits2_pos p) - 1.
Proof.
  destruct mrs as [m r s]; cbn [shr_m]. intros -> Hd.
  destruct p as [p|p|]; cbn [digits2_pos shr_1 shr_m] in *;
    rewrite ?Pos2Z.inj_succ in *; try lia; exists p; split; auto; lia.
Qed.

(** [n] shifts drop [n] digits as long as some remain. *)
Lemma iter_shr_1_digits n : forall mrs p,
  shr_m mrs = Zpos p -> Zpos n < Zpos (digits2_pos p) ->
  exists p', shr_m (SpecFloat.iter_pos shr_1 n mrs) = Zpos p'
             /\ Zpos (digits2_pos p') = Zpos (digits2_pos p) - Zpos n.
Proof.
  induction n as [n IH|n IH|]; intros mrs p Hm Hd; cbn [SpecFloat.iter_pos].
  - rewrite Pos2Z.inj_xI in *.
    destruct (shr_1_digits mrs p Hm) as (p1 & H1 & D1); [lia|].
    destruct (IH _ _ H1) as (p2 & H2 & D2); [lia|].
    destruct (IH _ _ H2) as (p3 & H3 & D3); [lia|].
    exists p3; split; auto; lia.
  - rewrite Pos2Z.inj_xO in *.
    destruct (IH _ _ Hm) as (p2 & H2 & D2); [lia|].
    destruct (IH _ _ H2) as (p3 & H3 & D3); [lia|].
    exists p3; split; auto; lia.
  - apply shr_1_digits; auto.
Qed.

(** Above the least exponent, rounding to the format keeps a positive
    mantissa positive. *)
Lemma shr_fexp_pos p e l :
  emin <= e ->
  exists p', shr_m (fst (shr_fexp prec emax (Zpos p) e l)) = Zpos p'
             /\ emin <= snd (shr_fexp prec emax (Zpos p) e l).
Proof.
  intros He. unfold shr_fexp, shr.
  destruct (fexp prec emax (Zdigits2 (Zpos p) + e) - e) as [|k|k] eqn:Hk; simpl;
    try (exists p; split; [apply shr_m_of_loc|exact He]).
  destruct (iter_shr_1_digits k (shr_record_of_loc (Zpos p) l) p) as (p' & Hp' & _).
  - apply shr_m_of_loc.
  - unfold fexp, SpecFloat.emin, prec, emax in *. cbn [Zdigits2] in Hk. lia.
  - exists p'. split; [exact Hp'|lia].
Qed.

Lemma round_nearest_even_pos p l :
  exists q, round_nearest_even (Zpos p) l = Zpos q.
Proof.
  destruct l as [|[]]; cbn [round_nearest_even];
    try destruct (Z.even (Zpos p)); eexists; reflexivity.
Qed.

Lemma binary_round_aux_pos sx p e l :
  emin <= e ->
  (exists m e', binary_round_aux prec emax sx (Zpos p) e l = S754_finite sx m e')
  \/ binary_round_aux prec emax sx (Zpos p) e l = S754_infinity sx.
Proof.
  intros He. unfold binary_round_aux.
  destruct (shr_fexp_pos p e l He) as (p1 & H1 & E1).
  destruct (shr_fexp prec emax (Zpos p) e l) as [mrs1 e1]; simpl in H1, E1.
  rewrite H1.
  destruct (round_nearest_even_pos p1 (loc_of_shr_record mrs1)) as (q & ->).
  destruct (shr_fexp_pos q e1 loc_Exact E1) as (p2 & H2 & _).
  destruct (shr_fexp prec emax (Zpos q) e1 loc_Exact) as [mrs2 e2]; simpl in H2.
  rewrite H2. destruct (e2 <=? emax - prec); eauto.
Qed.

Lemma binary_round_pos sx m e :
  emin <= e ->
  (exists m' e', binary_round prec emax sx m e = S754_finite sx m' e')
  \/ binary_round prec emax sx m e = S754_infinity sx.
Proof.
  intros He. unfold binary_round, shl_align.
  destruct (fexp prec emax (Zpos (digits2_pos m) + e) - e) eqn:Hk;
    apply binary_round_aux_pos; try exact He.
  unfold fexp. lia.
Qed.

Lemma valid_finite_emin s m e :
  valid_binary (S754_finite s m e) = true -> emin <= e.
Proof.
  simpl. unfold bounded, canonical_mantissa, fexp.
  intros H. apply andb_prop in H as [H _]. apply Z.eqb_eq in H. lia.
Qed.

(** The sum of two valid numbers is [-0] only for [-0 + -0]. *)
Lemma SFadd_neg_zero x y :
  valid_binary x = true -> valid_binary y = true ->
  SF64add x y = S754_zero true -> x = S754_zero true /\ y = S754_zero true.
Proof.
  intros Vx Vy. unfold SF64add, SFadd.
  destruct x as [[]|[]| |sx mx ex], y as [[]|[]| |sy my ey];
    try discriminate; auto.
  apply valid_finite_emin in Vx, Vy.
  set (ez := Z.min ex ey). assert (emin <= ez) by (unfold ez; lia).
  unfold binary_normalize.
  destruct (_ + _) as [|z|z]; try discriminate;
    (destruct (binary_round_pos false z ez) as [(m' & e' & ->)| ->]; auto; discriminate)
    || (destruct (binary_round_pos true z ez) as [(m' & e' & ->)| ->]; auto; discriminate).
Qed.

(** The sum of two valid numbers is [NaN] only when one of them is, or for
    infinities of opposite signs. *)
Lemma SFadd_nan x y :
  valid_binary x = true -> valid_binary y = true ->
  SF64add x y = S754_nan ->
  x = S754_nan \/ y = S754_nan
  \/ exists s, x = S754_infinity s /\ y = S754_infinity (negb s).
Proof.
  intros Vx Vy. unfold SF64add, SFadd.
  destruct x as [[]|[]| |sx mx ex], y as [[]|[]| |sy my ey];
    try discriminate; auto;
    try (intros _; right; right; eexists; split; reflexivity).
  apply valid_finite_emin in Vx, Vy.
  set (ez := Z.min ex ey). assert (emin <= ez) by (unfold ez; lia).
  unfold binary_normalize.
  destruct (_ + _) as [|z|z]; try discriminate;
    (destruct (binary_round_pos false z ez) as [(m' & e' & ->)| ->]; auto; discriminate)
    || (destruct (binary_round_pos true z ez) as [(m' & e' & ->)| ->]; auto; discriminate).
Qed.


(** *** The primitive operations *)

Lemma SFeqb_refl x : x <> S754_nan -> SFeqb x x = true.
Proof.
  destruct x as [[]|[]| |[] m e]; unfold SFeqb, SFcompare; try congruence;
    intros _; rewrite Z.compare_refl, Pos.compare_cont_refl; reflexivity.
Qed.

Lemma is_nan_spec x : is_nan x = true <-> Prim2SF x = S754_nan.
Proof.
  unfold is_nan. rewrite FloatAxioms.eqb_spec. split.
  - intros H. destruct (Prim2SF x) eqn:E; try reflexivity;
      rewrite SFeqb_refl in H by discriminate; discriminate.
  - intros ->. reflexivity.
Qed.

Lemma is_nan_false x : is_nan x = false <-> Prim2SF x <> S754_nan.
Proof.
  rewrite <- is_nan_spec. destruct (is_nan x); split; congruence.
Qed.

Lemma is_infinity_spec x :
  is_infinity x = true <-> exists s, Prim2SF x = S754_infinity s.
Proof.
  unfold is_infinity. rewrite FloatAxioms.eqb_spec, FloatAxioms.abs_spec.
  change (Prim2SF infinity) with (S754_infinity false).
  destruct (Prim2SF x) as [s|s| |s m e]; simpl; split;
    try discriminate; try (intros [? ?]; discriminate); eauto.
Qed.

Lemma is_zero_spec x :
  (x =? 0)%float = true <-> exists s, Prim2SF x = S754_zero s.
Proof.
  rewrite FloatAxioms.eqb_spec. change (Prim2SF 0) with (S754_zero false).
  destruct (Prim2SF x) as [s|s| |s m e]; unfold SFeqb; simpl; split;
    try discriminate; try (intros [? ?]; discriminate); eauto;
    destruct s; discriminate.
Qed.

(** A sum is [NaN] only if a summand is, or the summands are infinities. *)
Lemma add_is_nan x y :
  is_nan x = false -> is_nan y = false -> is_infinity y = false ->
  is_nan (x + y)%float = false.
Proof.
  rewrite !is_nan_false. intros Hx Hy Hi Hnan.
  rewrite FloatAxioms.add_spec in Hnan.
  apply SFadd_nan in Hnan; try apply Prim2SF_valid.
  destruct Hnan as [H|[H|(s & _ & H)]]; try contradiction.
  assert (is_infinity y = true) by (apply is_infinity_spec; eauto).
  congruence.
Qed.

(** A sum is [-0] only if its first summand is. *)
Lemma add_neg_zero x y :
  Prim2SF (x + y)%float = S754_zero true -> Prim2SF x = S754_zero true.
Proof.
  rewrite FloatAxioms.add_spec. intros H.
  apply SFadd_neg_zero in H; try apply Prim2SF_valid. tauto.
Qed.

(** Adding [0] to anything but [-0] changes nothing. *)
Lemma add_zero_r x : Prim2SF x <> S754_zero true -> (x + 0)%float = x.
Proof.
  intros H. apply Prim2SF_inj. rewrite FloatAxioms.add_spec.
  change (Prim2SF 0) with (S754_zero false).
  destruct (Prim2SF x) as [[]|[]| |]; try reflexivity. congruence.
Qed.

End Binary64.

(** ** Missing amounts and the sums *)

Section Coalescing.
Import JS PropertyDetail.

(** [t.amount || 0] is [0] or a number that is neither zero nor [NaN]. *)
Lemma number_or_0_cases (a : option number) :
  number_or a 0%float = 0%float
  \/ exists v, a = Some v /\ number_or a 0%float = v
               /\ (v =? 0)%float = false /\ is_nan v = false.
Proof.
  destruct a as [v|]; simpl; [|auto].
  unfold ToBoolean_number.
  destruct (v =? 0)%float eqn:Hz, (is_nan v) eqn:Hn; simpl; auto.
  right. exists v. auto.
Qed.

Lemma number_or_0_not_nan a : is_nan (number_or a 0%float) = false.
Proof.
  destruct (number_or_0_cases a) as [-> | (v & _ & -> & _ & Hn)];
    [reflexivity | exact Hn].
Qed.

Lemma number_or_0_not_neg_zero a :
  Prim2SF (number_or a 0%float) <> S754_zero true.
Proof.
  destruct (number_or_0_cases a) as [-> | (v & _ & -> & Hz & _)].
  - discriminate.
  - intros H. assert ((v =? 0)%float = true) by (apply is_zero_spec; eauto).
    congruence.
Qed.

Lemma number_or_0_infinite t :
  infinite_amount t = false -> is_infinity (number_or (amount t) 0%float) = false.
Proof.
  unfold infinite_amount.
  destruct (number_or_0_cases (amount t)) as [-> | (v & -> & -> & _)]; auto.
Qed.

(** The reducer never turns an accumulator that is not [-0] into [-0]. *)
Lemma reduce_not_neg_zero (l : list ModelsRealEstateTransaction) : forall acc,
  Prim2SF acc <> S754_zero true ->
  Prim2SF (fold_left (fun sum t => (sum + number_or (amount t) 0)%float) l acc)
  <> S754_zero true.
Proof.
  induction l as [|t l IH]; intros acc Hacc; simpl; [exact Hacc|].
  apply IH. intros H. apply add_neg_zero in H. contradiction.
Qed.

(** Without infinite amounts the reducer never produces [NaN]. *)
Lemma reduce_not_nan (l : list ModelsRealEstateTransaction) : forall acc,
  Forall (fun t => infinite_amount t = false) l ->
  is_nan acc = false ->
  is_nan (fold_left (fun sum t => (sum + number_or (amount t) 0)%float) l acc)
  = false.
Proof.
  induction l as [|t l IH]; intros acc Hl Hacc; simpl; [exact Hacc|].
  inversion_clear Hl as [|? ? Ht Hl'].
  apply IH; [exact Hl'|].
  apply add_is_nan; auto using number_or_0_not_nan, number_or_0_infinite.
Qed.

Lemma Forall_filter_bool {A} (P : A -> Prop) (f : A -> bool) (l : list A) :
  Forall P l -> Forall P (List.filter f l).
Proof.
  induction 1 as [|a l Ha Hl IH]; simpl; [constructor|].
  destruct (f a); [constructor|]; assumption.
Qed.

(** An entry whose amount is coalesced to [0] can be left out of a sum. *)
Lemma sumOfType_drop_zero ty l1 t l2 :
  number_or (amount t) 0%float = 0%float ->
  sumOfType ty (l1 ++ t :: l2) = sumOfType ty (l1 ++ l2).
Proof.
  intros Ht. unfold sumOfType. rewrite !List.filter_app. simpl.
  destruct (type_is ty t); [|reflexivity].
  rewrite !fold_left_app. simpl. rewrite Ht.
  rewrite add_zero_r; [reflexivity|].
  apply reduce_not_neg_zero. discriminate.
Qed.

(** Outside the amounts of the data model: the income total of the two
    infinities of opposite signs is [NaN]. *)
Example sum_of_infinities_is_nan :
  is_nan (totalIncome (Scenario.page Scenario.infinities "" "")) = true.
Proof. reflexivity. Qed.

(** *** The sums in the words of the specification *)

Lemma type_is_true_iff ty t : type_is ty t = true <-> type t = Some ty.
Proof.
  unfold type_is. destruct (type t) as [[]|], ty; split; congruence.
Qed.

(** The callback of the code's [filter] selects the entries of the kind. *)
Lemma filter_type_is ty (l : list ModelsRealEstateTransaction) :
  List.filter (type_is ty) l = entries_of_kind ty l.
Proof.
  unfold entries_of_kind. induction l as [|t l IH]; [reflexivity|].
  rewrite filter_cons. simpl.
  destruct (type_is ty t) eqn:Ht.
  - apply type_is_true_iff in Ht. rewrite decide_True by exact Ht.
    f_equal. exact IH.
  - rewrite decide_False; [exact IH|].
    intros H. apply type_is_true_iff in H. congruence.
Qed.

(** Adding [-0] to anything but [-0] changes nothing. *)
Lemma add_neg_zero_r x v :
  Prim2SF x <> S754_zero true -> Prim2SF v = S754_zero true -> (x + v)%float = x.
Proof.
  intros Hx Hv. apply Prim2SF_inj. rewrite FloatAxioms.add_spec, Hv.
  destruct (Prim2SF x) as [[]|[]| |]; reflexivity.
Qed.

(** On an accumulator that is not [-0], the reducer adds the amount of the
    entry. *)
Lemma reducer_adds_amount_value acc t :
  Prim2SF acc <> S754_zero true ->
  (acc + number_or (amount t) 0)%float = (acc + amount_value t)%float.
Proof.
  intros Hacc. unfold amount_value.
  destruct (amount t) as [v|]; simpl; [|reflexivity].
  unfold ToBoolean_number.
  destruct (is_nan v) eqn:Hn; [rewrite orb_true_r; reflexivity|].
  rewrite orb_false_r.
  destruct (v =? 0)%float eqn:Hz; simpl; [|reflexivity].
  apply is_zero_spec in Hz as ([] & Hs).
  - rewrite (add_neg_zero_r acc v), add_zero_r; auto.
  - f_equal. symmetry. apply Prim2SF_inj. exact Hs.
Qed.

Lemma reduce_sum_amounts (l : list ModelsRealEstateTransaction) : forall acc,
  Prim2SF acc <> S754_zero true ->
  fold_left (fun sum t => (sum + number_or (amount t) 0)%float) l acc
  = fold_left (fun sum t => (sum + amount_value t)%float) l acc.
Proof.
  induction l as [|t l IH]; intros acc Hacc; simpl; [reflexivity|].
  rewrite <- reducer_adds_amount_value by exact Hacc.
  apply IH. intros H. apply add_neg_zero in H. contradiction.
Qed.

Lemma sumOfType_sum_amounts ty l :
  sumOfType ty l = sum_amounts (entries_of_kind ty l).
Proof.
  unfold sumOfType, sum_amounts. rewrite filter_type_is.
  apply reduce_sum_amounts. discriminate.
Qed.

(** C3. Each sum is the sum, in list order, of the amounts of exactly the
    entries of its kind: [totalIncome] and [filteredIncome] of the entries
    whose type is [INCOME], [totalExpense] and [filteredExpense] of those
    whose type is [EXPENSE]; and no entry is among the entries of both
    kinds. *)
Theorem totals_sum_the_entries_of_their_kind :
  forall (newDate : string -> Date) (st : State),
    totalIncome st
      = sum_amounts (entries_of_kind RealEstateIncome (transactions st))
    /\ totalExpense st
       = sum_amounts (entries_of_kind RealEstateExpense (transactions st))
    /\ filteredIncome newDate st
       = sum_amounts
           (entries_of_kind RealEstateIncome (filteredTransactions newDate st))
    /\ filteredExpense newDate st
       = sum_amounts
           (entries_of_kind RealEstateExpense (filteredTransactions newDate st))
    /\ forall (l : list ModelsRealEstateTransaction) t,
         t ∈ entries_of_kind RealEstateIncome l ->
         t ∉ entries_of_kind RealEstateExpense l.
Proof.
  intros newDate st.
  unfold totalIncome, totalExpense, filteredIncome, filteredExpense.
  rewrite !sumOfType_sum_amounts. repeat split.
  intros l t Hi He. unfold entries_of_kind in *.
  apply list_elem_of_filter in Hi as [Hi _], He as [He _]. congruence.
Qed.

(** *** Sums of amounts that are not negative *)

(** The sum of two valid values that are not negative is not negative (and
    so is not [NaN]): it is at worst [+Infinity]. *)
Lemma SFadd_nonnegative x y :
  valid_binary x = true -> valid_binary y = true ->
  nonnegative x -> nonnegative y -> nonnegative (SF64add x y).
Proof.
  intros Vx Vy.
  destruct x as [[]|[]| |[] mx ex], y as [[]|[]| |[] my ey];
    simpl; try tauto.
  intros _ _. apply valid_finite_emin in Vx, Vy.
  unfold SF64add, SFadd, cond_Zopp.
  set (ez := Z.min ex ey).
  assert (SpecFloat.emin prec emax <= ez)%Z by (unfold ez; lia).
  change (Z.pos ?a + Z.pos ?b)%Z with (Z.pos (a + b)).
  unfold binary_normalize.
  destruct (binary_round_pos false
              (fst (shl_align mx ex ez) + fst (shl_align my ey ez)) ez)
    as [(m' & e' & ->)| ->]; simpl; auto.
Qed.

Lemma nonnegative_not_nan x : nonnegative (Prim2SF x) -> is_nan x = false.
Proof.
  intros H. apply is_nan_false. intros E. rewrite E in H. exact H.
Qed.

(** What the reducer adds for an entry whose amount is not negative. *)
Lemma number_or_0_nonnegative t :
  negative_amount t = false -> nonnegative (Prim2SF (number_or (amount t) 0%float)).
Proof.
  unfold negative_amount.
  destruct (number_or_0_cases (amount t)) as [-> | (v & -> & -> & Hz & Hn)];
    [intros _; exact I|].
  rewrite FloatAxioms.ltb_spec. change (Prim2SF 0) with (S754_zero false).
  apply is_nan_false in Hn.
  destruct (Prim2SF v) as [s|[]| |[] m e] eqn:E; unfold SFltb; simpl;
    try discriminate; try tauto.
  assert ((v =? 0)%float = true) by (apply is_zero_spec; eauto). congruence.
Qed.

Lemma reduce_nonnegative (l : list ModelsRealEstateTransaction) : forall acc,
  Forall (fun t => negative_amount t = false) l ->
  nonnegative (Prim2SF acc) ->
  nonnegative
    (Prim2SF (fold_left (fun sum t => (sum + number_or (amount t) 0)%float) l acc)).
Proof.
  induction l as [|t l IH]; intros acc Hl Hacc; simpl; [exact Hacc|].
  inversion_clear Hl as [|? ? Ht Hl'].
  apply IH; [exact Hl'|].
  rewrite FloatAxioms.add_spec.
  apply SFadd_nonnegative; auto using Prim2SF_valid, number_or_0_nonnegative.
Qed.

(** C10. An entry without an amount is summed as [0]: every sum is what it
    is without the entry, while the entry stays in the list. And the sums
    are numbers: over amounts that are not negative (the invariant of the
    data model), [+Infinity] and overflowing sums included, no sum is
    [NaN]. *)
Theorem sums_are_numbers :
  (forall ty l1 t l2,
      amount t = None ->
      number_or (amount t) 0%float = 0%float
      /\ sumOfType ty (l1 ++ t :: l2) = sumOfType ty (l1 ++ l2)
      /\ In t (l1 ++ t :: l2)
      /\ length (l1 ++ t :: l2) = S (length (l1 ++ l2)))
  /\ (forall ty l,
         Forall (fun t => negative_amount t = false) l ->
         is_nan (sumOfType ty l) = false).
Proof.
  split.
  - intros ty l1 t l2 Ha.
    assert (Hz : number_or (amount t) 0%float = 0%float) by (rewrite Ha; reflexivity).
    repeat split.
    + exact Hz.
    + apply sumOfType_drop_zero, Hz.
    + apply in_or_app. right. left. reflexivity.
    + rewrite !length_app. simpl. lia.
  - intros ty l Hl. unfold sumOfType.
    apply nonnegative_not_nan, reduce_nonnegative; [|exact I].
    apply Forall_filter_bool, Hl.
Qed.

(** X14. Negative amounts allowed: as long as no amount is an infinity, no
    sum is [NaN]; a sum that overflows is an infinity. *)
Theorem sums_not_nan_without_infinities :
  forall ty (l : list ModelsRealEstateTransaction),
    Forall (fun t => infinite_amount t = false) l ->
    is_nan (sumOfType ty l) = false.
Proof.
  intros ty l Hl. unfold sumOfType.
  apply reduce_not_nan; [|reflexivity].
  apply Forall_filter_bool, Hl.
Qed.

End Coalescing.

(** The sums at sample lists: an entry without an amount between two
    others, and a list holding [+Infinity] and an amount that overflows. *)
Lemma sums_are_numbers_witness :
  PropertyDetail.sumOfType PropertyDetail.RealEstateIncome
    ([Scenario.entry PropertyDetail.RealEstateIncome 100%float None]
       ++ Scenario.no_amount
          :: [Scenario.entry PropertyDetail.RealEstateIncome 20%float None])
  = PropertyDetail.sumOfType PropertyDetail.RealEstateIncome
      ([Scenario.entry PropertyDetail.RealEstateIncome 100%float None]
         ++ [Scenario.entry PropertyDetail.RealEstateIncome 20%float None])
  /\ PrimFloat.is_nan
       (PropertyDetail.sumOfType PropertyDetail.RealEstateIncome
          [Scenario.entry PropertyDetail.RealEstateIncome infinity None;
           Scenario.no_amount;
           Scenario.entry PropertyDetail.RealEstateIncome 0x1p+1023%float None;
           Scenario.entry PropertyDetail.RealEstateIncome 0x1p+1023%float None])
     = false.
Proof.
  split.
  - apply (proj1 sums_are_numbers). reflexivity.
  - apply (proj2 sums_are_numbers).
    repeat constructor.
Defined.

Lemma sums_not_nan_without_infinities_witness :
  PrimFloat.is_nan
    (PropertyDetail.sumOfType PropertyDetail.RealEstateIncome
       [Scenario.entry PropertyDetail.RealEstateIncome 0x1p+1023%float None;
        Scenario.entry PropertyDetail.RealEstateIncome 0x1p+1023%float None;
        Scenario.entry PropertyDetail.RealEstateIncome (-40)%float None])
  = false.
Proof.
  apply sums_not_nan_without_infinities.
  repeat constructor.
Defined.

(** ** The category breakdown *)

Section BreakdownFacts.
Import JS Breakdown.

Variable neutralColor : string.
Variable tieKind : Kind.
Variable categories : gmap string Category.

Lemma Kind_eqb_eq a b : Kind_eqb a b = true <-> a = b.
Proof. destruct a, b; simpl; split; congruence. Qed.

(** Entries of other kinds leave the per-kind accumulator alone. *)
Lemma totalForKind_fold_none k (entries : list LedgerEntry) : forall acc,
  Forall (fun e => kind e <> k) entries ->
  fold_left (fun sum e => if Kind_eqb (kind e) k then (sum + amount e)%float else sum)
    entries acc = acc.
Proof.
  induction entries as [|e entries IH]; intros acc H; simpl; [reflexivity|].
  inversion_clear H as [|? ? He Hrest].
  destruct (Kind_eqb (kind e) k) eqn:Hk; [apply Kind_eqb_eq in Hk; contradiction|].
  apply IH, Hrest.
Qed.

Lemma totalForKind_none k entries :
  Forall (fun e => kind e <> k) entries -> totalForKind k entries = 0%float.
Proof. apply totalForKind_fold_none. Qed.

Lemma percentageOf_zero_total a total :
  (total =? 0)%float = true -> percentageOf a total = 0%float.
Proof. unfold percentageOf. intros ->. reflexivity. Qed.

(** C8. In the breakdown, a row whose kind has a zero total among the
    entries (in particular when no entry is of that kind) has the
    percentage [0], which is not [NaN]. *)
Theorem percentage_zero_when_kind_total_zero :
  forall (entries : list LedgerEntry) (b : CategoryBreakdownEntry),
    b ∈ breakdown neutralColor tieKind categories entries ->
    (totalForKind (entry_kind b) entries =? 0)%float = true
    \/ Forall (fun e => kind e <> entry_kind b) entries ->
    percentage b = 0%float /\ is_nan (percentage b) = false.
Proof.
  intros entries b Hb Hzero. unfold breakdown in Hb.
  apply list_elem_of_fmap in Hb as ([key g] & -> & _).
  cbn [breakdownEntry percentage entry_kind] in *.
  assert (Hp : (totalForKind (groupKind tieKind categories key g) entries =? 0)%float = true).
  { destruct Hzero as [H|H]; [exact H|].
    rewrite (totalForKind_none _ _ H). reflexivity. }
  rewrite (percentageOf_zero_total _ _ Hp). split; reflexivity.
Qed.

End BreakdownFacts.

(** An income entry filed under an expense category: its row is of kind
    [Expense], no entry is an expense, and its percentage is [0]. *)
Lemma percentage_zero_when_kind_total_zero_witness :
  Breakdown.percentage Scenario.refund_row = 0%float
  /\ PrimFloat.is_nan (Breakdown.percentage Scenario.refund_row) = false.
Proof.
  apply (percentage_zero_when_kind_total_zero ""%string Breakdown.Income
           {[ "repairs"%string := Scenario.repairs ]} [Scenario.refund]).
  - vm_compute. apply list_elem_of_here.
  - left. reflexivity.
Defined.

(** ** The table of the property page *)

Section TableFacts.
Import JS PropertyDetail PropertyDetailView.

Variable newDate : string -> Date.

Lemma filter_all {A} (f : A -> bool) (l : list A) :
  (forall x, In x l -> f x = true) -> List.filter f l = l.
Proof.
  induction l as [|a l IH]; intros H; simpl; [reflexivity|].
  rewrite (H a) by (left; reflexivity).
  f_equal. apply IH. intros x Hx. apply H. right. exact Hx.
Qed.

Lemma filter_filter_andb {A} (f g : A -> bool) (l : list A) :
  List.filter g (List.filter f l) = List.filter (fun x => f x && g x) l.
Proof.
  induction l as [|a l IH]; simpl; [reflexivity|].
  destruct (f a); simpl; [destruct (g a)|]; rewrite IH; reflexivity.
Qed.

Lemma filter_sublist_impl {A} (f g : A -> bool) (l : list A) :
  (forall x, f x = true -> g x = true) ->
  sublist (List.filter f l) (List.filter g l).
Proof.
  intros H. induction l as [|a l IH]; simpl; [constructor|].
  destruct (f a) eqn:Hf.
  - rewrite (H a Hf). constructor. exact IH.
  - destruct (g a); [constructor|]; exact IH.
Qed.

(** Without bounds the callback accepts every entry. *)
Lemma inDateRange_no_bounds st t :
  showsFilteredSums st = false -> inDateRange newDate st t = true.
Proof.
  unfold showsFilteredSums, inDateRange. intros H.
  apply orb_false_elim in H as [-> ->].
  destruct (transaction_date t) as [s|]; [|reflexivity].
  destruct (ToBoolean_string s); reflexivity.
Qed.

(** With both bounds the callback is the conjunction of the callback with
    the [from] bound alone and the callback with the [to] bound alone. *)
Lemma inDateRange_split l from to t :
  inDateRange newDate
    {| transactions := l; filterFromDate := from; filterToDate := to |} t
  = inDateRange newDate
      {| transactions := l; filterFromDate := from; filterToDate := "" |} t
    && inDateRange newDate
         {| transactions := List.filter
              (inDateRange newDate
                 {| transactions := l; filterFromDate := from; filterToDate := "" |}) l;
            filterFromDate := ""; filterToDate := to |} t.
Proof.
  unfold inDateRange. simpl.
  destruct (transaction_date t) as [s|]; [|reflexivity].
  destruct (ToBoolean_string s); simpl; [|reflexivity].
  destruct (ToBoolean_string from); simpl;
    [destruct (Date_lt (newDate s) (newDate from))|]; simpl;
    destruct (ToBoolean_string to); simpl;
    try destruct (Date_gt (newDate s) (newDate to)); reflexivity.
Qed.

(** X3. "Clear Filters" brings back every transaction: the table lists the
    whole list, the filtered figures equal the totals, and the filtered
    cards are hidden. *)
Theorem clearFilters_shows_everything :
  forall st : State,
    filteredTransactions newDate (clearFilters st) = transactions st
    /\ filteredIncome newDate (clearFilters st) = totalIncome st
    /\ filteredExpense newDate (clearFilters st) = totalExpense st
    /\ filteredBalance newDate (clearFilters st) = balance st
    /\ showsFilteredSums (clearFilters st) = false.
Proof.
  intros st.
  assert (E : filteredTransactions newDate (clearFilters st) = transactions st).
  { unfold filteredTransactions. simpl. apply filter_all.
    intros t _. apply inDateRange_no_bounds. reflexivity. }
  unfold filteredBalance, filteredIncome, filteredExpense.
  rewrite E. repeat split.
Qed.

(** X4. Filtering with both bounds is filtering with the [from] bound and then
    filtering the result with the [to] bound. *)
Theorem filteredTransactions_from_then_to :
  forall (l : list ModelsRealEstateTransaction) (from to : string),
    filteredTransactions newDate
      {| transactions := l; filterFromDate := from; filterToDate := to |}
    = filteredTransactions newDate
        {| transactions :=
             filteredTransactions newDate
               {| transactions := l; filterFromDate := from; filterToDate := "" |};
           filterFromDate := ""; filterToDate := to |}.
Proof.
  intros l from to. unfold filteredTransactions. simpl.
  rewrite filter_filter_andb.
  apply List.filter_ext. intros t. apply inDateRange_split.
Qed.

(** X5. Widening the period never hides an entry: with a lower bound that is
    absent or earlier and an upper bound that is absent or later, the
    entries shown before are still shown, in the same order. *)
Theorem widening_keeps_entries :
  forall st st' : State,
    transactions st' = transactions st ->
    wider_from (bound newDate (filterFromDate st')) (bound newDate (filterFromDate st)) ->
    wider_to (bound newDate (filterToDate st')) (bound newDate (filterToDate st)) ->
    sublist (filteredTransactions newDate st) (filteredTransactions newDate st').
Proof.
  intros st st' Htx Hfrom Hto. unfold filteredTransactions. rewrite Htx.
  apply filter_sublist_impl. intros t.
  rewrite !inDateRange_retained. unfold retained.
  destruct (occurredAt newDate t) as [d|]; [|trivial].
  unfold wider_from, wider_to in *.
  destruct (bound newDate (filterFromDate st')) as [f'|],
           (bound newDate (filterFromDate st)) as [f|],
           (bound newDate (filterToDate st')) as [u'|],
           (bound newDate (filterToDate st)) as [u|];
    try contradiction;
    intros [[Hf|(x & Hf & Hx)] [Hu|(z & Hu & Hz)]]; simplify_eq;
    split; eauto; right; eexists; (split; [reflexivity|lia]).
Qed.

(** X6. The notice "No transactions found for the selected date range" is only
    shown when a bound is set, there are transactions, and every one of
    them carries a date. *)
Theorem date_range_notice_needs_filter :
  forall st : State,
    tableBody newDate st
      = Notice "No transactions found for the selected date range" ->
    showsFilteredSums st = true
    /\ transactions st <> []
    /\ filteredTransactions newDate st = []
    /\ Forall (fun t => occurredAt newDate t <> None) (transactions st).
Proof.
  intros st. unfold tableBody.
  destruct (filteredTransactions newDate st) as [|t0 l0] eqn:Hf; simpl;
    [|discriminate].
  destruct (transactions st) as [|t l] eqn:Htx; simpl; [discriminate|].
  intros _.
  assert (Hnone : forall t', In t' (transactions st) ->
                             inDateRange newDate st t' = false).
  { intros t' Hin. destruct (inDateRange newDate st t') eqn:E; [|reflexivity].
    assert (In t' (filteredTransactions newDate st))
      by (apply filter_In; auto).
    rewrite Hf in H. contradiction. }
  repeat split.
  - destruct (showsFilteredSums st) eqn:Hs; [reflexivity|].
    rewrite <- (Hnone t), inDateRange_no_bounds; auto.
    rewrite Htx. left. reflexivity.
  - discriminate.
  - rewrite <- Htx. apply List.Forall_forall. intros t' Hin Hd.
    specialize (Hnone t' Hin).
    assert (inDateRange newDate st t' = true)
      by (apply inDateRange_retained; rewrite Hd; exact I).
    congruence.
Qed.

End TableFacts.

Lemma widening_keeps_entries_witness :
  sublist
    (PropertyDetail.filteredTransactions JS.isoDate
       (Scenario.page [Scenario.rent_jan31] "2024-01-31" ""))
    (PropertyDetail.filteredTransactions JS.isoDate
       (Scenario.page [Scenario.rent_jan31] "2024-01-01" "")).
Proof.
  apply widening_keeps_entries.
  - reflexivity.
  - vm_compute. discriminate.
  - vm_compute. exact I.
Defined.

Lemma date_range_notice_needs_filter_witness :
  PropertyDetailView.showsFilteredSums
    (Scenario.page [Scenario.rent_jan31] "" "2024-01-31") = true
  /\ PropertyDetail.transactions
       (Scenario.page [Scenario.rent_jan31] "" "2024-01-31") <> []
  /\ PropertyDetail.filteredTransactions JS.isoDate
       (Scenario.page [Scenario.rent_jan31] "" "2024-01-31") = []
  /\ Forall (fun t => PropertyDetail.occurredAt JS.isoDate t <> None)
       (PropertyDetail.transactions
          (Scenario.page [Scenario.rent_jan31] "" "2024-01-31")).
Proof.
  apply date_range_notice_needs_filter. reflexivity.
Defined.

Lemma from_day_inclusive_witness :
  PropertyDetail.inDateRange JS.isoDate
    (Scenario.page [Scenario.rent_jan31] "2024-01-31" "") Scenario.rent_jan31
  = true.
Proof.
  apply (from_day_inclusive JS.isoDate _ _ "2024-01-31T12:00:00.000Z" 19753 43200000);
    try reflexivity.
  lia.
Defined.

Lemma to_day_only_midnight_witness :
  PropertyDetail.inDateRange JS.isoDate
    (Scenario.page [Scenario.rent_jan31] "" "2024-01-31") Scenario.rent_jan31
  = (43200000 =? 0)%Z.
Proof.
  apply (to_day_only_midnight JS.isoDate _ _ "2024-01-31T12:00:00.000Z" 19753 43200000);
    try reflexivity.
  lia.
Defined.

(** ** Signed zeros and falsy amounts *)

Section SignedZero.
Import JS PropertyDetail.

Variable newDate : string -> Date.

(** A difference of two valid numbers is [-0] only if the minuend is. *)
Lemma SFsub_neg_zero x y :
  valid_binary x = true -> valid_binary y = true ->
  SF64sub x y = S754_zero true -> x = S754_zero true.
Proof.
  intros Vx Vy. unfold SF64sub, SFsub.
  destruct x as [[]|[]| |sx mx ex], y as [[]|[]| |sy my ey];
    try discriminate; auto.
  apply valid_finite_emin in Vx, Vy.
  set (ez := Z.min ex ey). assert (SpecFloat.emin prec emax <= ez)%Z by (unfold ez; lia).
  unfold binary_normalize.
  destruct (_ - _)%Z as [|z|z]; try discriminate;
    (destruct (binary_round_pos false z ez) as [(m' & e' & ->)| ->]; auto; discriminate)
    || (destruct (binary_round_pos true z ez) as [(m' & e' & ->)| ->]; auto; discriminate).
Qed.

Lemma sub_neg_zero x y :
  Prim2SF (x - y)%float = S754_zero true -> Prim2SF x = S754_zero true.
Proof.
  rewrite FloatAxioms.sub_spec. intros H.
  apply SFsub_neg_zero in H; auto using Prim2SF_valid.
Qed.

Lemma sumOfType_not_neg_zero ty l : Prim2SF (sumOfType ty l) <> S754_zero true.
Proof. unfold sumOfType. apply reduce_not_neg_zero. discriminate. Qed.

(** X7. No figure of the page is ever the binary64 value [-0]: neither a
    sum nor a balance, whatever the amounts are. *)
Theorem figures_never_negative_zero :
  forall st : State,
    Prim2SF (totalIncome st) <> S754_zero true
    /\ Prim2SF (totalExpense st) <> S754_zero true
    /\ Prim2SF (filteredIncome newDate st) <> S754_zero true
    /\ Prim2SF (filteredExpense newDate st) <> S754_zero true
    /\ Prim2SF (balance st) <> S754_zero true
    /\ Prim2SF (filteredBalance newDate st) <> S754_zero true.
Proof.
  intros st. repeat split; try apply sumOfType_not_neg_zero;
    intros H; apply sub_neg_zero in H; revert H; apply sumOfType_not_neg_zero.
Qed.

(** X8. An entry whose amount is [0], [-0] or [NaN] adds nothing: every sum is
    what it is without the entry. *)
Theorem falsy_amount_adds_nothing :
  forall ty l1 t l2 v,
    amount t = Some v -> ToBoolean_number v = false ->
    sumOfType ty (l1 ++ t :: l2) = sumOfType ty (l1 ++ l2).
Proof.
  intros ty l1 t l2 v Ha Hv. apply sumOfType_drop_zero.
  rewrite Ha. simpl. rewrite Hv. reflexivity.
Qed.

End SignedZero.

Lemma falsy_amount_adds_nothing_witness :
  PropertyDetail.sumOfType PropertyDetail.RealEstateIncome
    ([Scenario.entry PropertyDetail.RealEstateIncome 100%float None]
       ++ Scenario.entry PropertyDetail.RealEstateIncome nan None :: [])
  = PropertyDetail.sumOfType PropertyDetail.RealEstateIncome
      ([Scenario.entry PropertyDetail.RealEstateIncome 100%float None] ++ []).
Proof.
  apply (falsy_amount_adds_nothing _ _ _ _ nan); reflexivity.
Defined.

(** ** The amount field of the form *)

Section AmountField.
Import JS RealEstateTransactionForm.

Lemma skipDigits_digits (a rest : list ascii) :
  Forall (fun c => isDigit c = true) a -> skipDigits (a ++ rest) = skipDigits rest.
Proof.
  induction 1 as [|c a Hc Ha IH]; simpl; [reflexivity|].
  rewrite Hc. exact IH.
Qed.

(** What [skipDigits] skips are digits, and what it leaves does not start
    with one. *)
Lemma skipDigits_split (cs : list ascii) :
  exists a, Forall (fun c => isDigit c = true) a
            /\ cs = a ++ skipDigits cs
            /\ match skipDigits cs with
               | c :: _ => isDigit c = false
               | [] => True
               end.
Proof.
  induction cs as [|c cs (a & Ha & Hcs & Hhd)]; simpl.
  - exists []. repeat split; constructor.
  - destruct (isDigit c) eqn:Hc.
    + exists (c :: a). repeat split; [constructor; assumption| |exact Hhd].
      simpl. f_equal. exact Hcs.
    + exists []. repeat split; [constructor|exact Hc].
Qed.

(** X9. The pattern of the amount field accepts exactly the decimal numerals:
    digits, then at most one point, then digits (either run may be empty). *)
Theorem amountPattern_decimal :
  forall value : string,
    amountPattern value = true <->
    exists a b,
      Forall (fun c => isDigit c = true) a
      /\ Forall (fun c => isDigit c = true) b
      /\ (list_ascii_of_string value = a
          \/ list_ascii_of_string value = a ++ "."%char :: b).
Proof.
  intros value. unfold amountPattern.
  set (cs := list_ascii_of_string value). split.
  - destruct (skipDigits_split cs) as (a & Ha & Hcs & _).
    destruct (skipDigits cs) as [|c rest] eqn:Hskip.
    + intros _. exists a, []. rewrite app_nil_r in Hcs. auto.
    + destruct (Ascii.eqb_spec c "."%char) as [->|]; [|discriminate].
      destruct (skipDigits_split rest) as (b & Hb & Hrest & _).
      destruct (skipDigits rest); [|discriminate].
      rewrite app_nil_r in Hrest. subst rest.
      intros _. exists a, b. auto.
  - intros (a & b & Ha & Hb & [-> | ->]).
    + rewrite <- (app_nil_r a), skipDigits_digits by assumption. reflexivity.
    + rewrite skipDigits_digits by assumption. simpl.
      rewrite <- (app_nil_r b), skipDigits_digits by assumption. reflexivity.
Qed.

(** X10. Typing never takes the amount out of the pattern: after any sequence
    of attempted changes, an amount that matched still matches, and the
    other fields are as they were. *)
Theorem handleAmountChange_keeps_pattern :
  forall (values : list string) (formData : FormData),
    amountPattern (amount formData) = true ->
    let formData' := fold_left handleAmountChange values formData in
    amountPattern (amount formData') = true
    /\ name formData' = name formData
    /\ property_id formData' = property_id formData
    /\ type formData' = type formData
    /\ description formData' = description formData
    /\ transaction_date formData' = transaction_date formData.
Proof.
  induction values as [|v values IH]; intros formData H; simpl; [auto 10|].
  assert (Hstep : amountPattern (amount (handleAmountChange formData v)) = true).
  { unfold handleAmountChange. destruct (amountPattern v) eqn:Hv; [exact Hv|exact H]. }
  destruct (IH _ Hstep) as (H1 & H2 & H3 & H4 & H5 & H6).
  unfold handleAmountChange in *.
  destruct (amountPattern v); auto 10.
Qed.

End AmountField.

Lemma handleAmountChange_keeps_pattern_witness :
  let formData :=
    {| RealEstateTransactionForm.name := "Rent";
       RealEstateTransactionForm.property_id := "p1";
       RealEstateTransactionForm.type := PropertyDetail.RealEstateIncome;
       RealEstateTransactionForm.amount := "12";
       RealEstateTransactionForm.description := "";
       RealEstateTransactionForm.transaction_date := "2024-01-31" |} in
  RealEstateTransactionForm.amountPattern
    (RealEstateTransactionForm.amount
       (fold_left RealEstateTransactionForm.handleAmountChange
          ["12."; "12.-"; "12.5"]%string formData)) = true.
Proof.
  intros formData.
  apply (handleAmountChange_keeps_pattern ["12."; "12.-"; "12.5"]%string formData).
  reflexivity.
Defined.

(** ** Submitting the form *)

Section SubmitFacts.
Import JS RealEstateTransactionForm.

Variable trim : string -> string.
Variable parseFloat : string -> number.
Variable newDate : string -> Date.
Variable rangeErrorMessage : string.

(** A number that is not [<= 0] is positive or [NaN]. *)
Lemma leb_zero_false x :
  (x <=? 0)%float = false -> (0 <? x)%float = true \/ is_nan x = true.
Proof.
  rewrite FloatAxioms.leb_spec, FloatAxioms.ltb_spec, is_nan_spec.
  change (Prim2SF 0) with (S754_zero false).
  destruct (Prim2SF x) as [s|[]| |[] m e]; unfold SFleb, SFltb; simpl;
    auto; discriminate.
Qed.

(** X11. A request leaves the form only after the three checks: its name is the
    trimmed name and is not empty, its property is not empty, its amount is
    what [parseFloat] reads and is positive or [NaN] (never zero or
    negative), its description is absent rather than empty, and its
    timestamp is noon UTC of the form's date. *)
Theorem handleSubmit_request_is_checked :
  forall (formData : FormData) (data : ModelsCreateRealEstateTransactionRequest),
    handleSubmit trim parseFloat newDate rangeErrorMessage formData = Request data ->
    request_name data = trim (name formData)
    /\ ToBoolean_string (request_name data) = true
    /\ ToBoolean_string (request_property_id data) = true
    /\ ToBoolean_string (amount formData) = true
    /\ request_amount data = parseFloat (amount formData)
    /\ ((0 <? request_amount data)%float = true \/ is_nan (request_amount data) = true)
    /\ request_description data <> Some ""%string
    /\ toISOString (newDate (transaction_date formData ++ "T12:00:00.000Z")%string)
       = Some (request_transaction_date data).
Proof.
  intros formData data. unfold handleSubmit.
  destruct (ToBoolean_string (trim (name formData))) eqn:Hname; simpl; [|discriminate].
  destruct (ToBoolean_string (property_id formData)) eqn:Hprop; simpl; [|discriminate].
  destruct (ToBoolean_string (amount formData)) eqn:Hamount; simpl; [|discriminate].
  destruct (parseFloat (amount formData) <=? 0)%float eqn:Hle; [discriminate|].
  unfold RealEstateTransactionModal.fullDateTime.
  destruct (toISOString _) as [fullDateTime|] eqn:Hdate; [|discriminate].
  intros [= <-]. simpl. repeat split; auto.
  - apply leb_zero_false, Hle.
  - destruct (ToBoolean_string (trim (description formData))) eqn:Hd; [|discriminate].
    intros [= E]. rewrite E in Hd. discriminate.
Qed.

End SubmitFacts.

Lemma handleSubmit_request_is_checked_witness :
  (0 <? 12.5)%float = true \/ PrimFloat.is_nan 12.5%float = true.
Proof.
  pose (formData :=
    {| RealEstateTransactionForm.name := "Rent";
       RealEstateTransactionForm.property_id := "p1";
       RealEstateTransactionForm.type := PropertyDetail.RealEstateIncome;
       RealEstateTransactionForm.amount := "12.5";
       RealEstateTransactionForm.description := "";
       RealEstateTransactionForm.transaction_date := "2024-01-31" |}).
  pose (data :=
    {| RealEstateTransactionForm.request_name := "Rent";
       RealEstateTransactionForm.request_property_id := "p1";
       RealEstateTransactionForm.request_type := PropertyDetail.RealEstateIncome;
       RealEstateTransactionForm.request_amount := 12.5%float;
       RealEstateTransactionForm.request_description := None;
       RealEstateTransactionForm.request_transaction_date :=
         "2024-01-31T12:00:00.000Z" |}).
  apply (handleSubmit_request_is_checked (fun s => s) (fun _ => 12.5%float)
           JS.isoDate "Invalid time value" formData data).
  reflexivity.
Defined.

(** ** Calendar arithmetic *)

Section CalendarFacts.
Import JS.
Local Open Scope Z_scope.

(** Within a 400-year era the day of the era determines the year of the
    era. *)
Lemma era_day (era yoe doy : Z) :
  0 <= yoe <= 399 -> 0 <= doy <= 365 ->
  (doy = 365 -> (yoe + 1) mod 4 = 0 /\ ((yoe + 1) mod 100 <> 0 \/ yoe = 399)) ->
  let doe := yoe * 365 + yoe / 4 - yoe / 100 + doy in
  let z' := era * 146097 + doe - 719468 + 719468 in
  z' / 146097 = era
  /\ (doe - doe / 1460 + doe / 36524 - doe / 146096) / 365 = yoe.
Proof.
  intros Hy Hd Hleap doe z'. subst doe z'.
  split.
  - Z.div_mod_to_equations; lia.
  - Z.div_mod_to_equations; lia.
Qed.

(** Reading back a day given by its era, year of era and day of the
    (March-based) year. *)
Lemma civil_of_era (era yoe doy : Z) :
  0 <= yoe <= 399 -> 0 <= doy <= 365 ->
  (doy = 365 -> (yoe + 1) mod 4 = 0 /\ ((yoe + 1) mod 100 <> 0 \/ yoe = 399)) ->
  civil_from_days (era * 146097 + (yoe * 365 + yoe / 4 - yoe / 100 + doy) - 719468)
  = (let mp := (5 * doy + 2) / 153 in
     let m := if mp <? 10 then mp + 3 else mp - 9 in
     (if m <=? 2 then yoe + era * 400 + 1 else yoe + era * 400,
      m, doy - (153 * mp + 2) / 5 + 1)).
Proof.
  intros Hy Hd Hleap.
  destruct (era_day era yoe doy Hy Hd Hleap) as [E1 E2]. cbv zeta in E1, E2.
  unfold civil_from_days. cbv zeta. rewrite E1.
  replace (era * 146097 + (yoe * 365 + yoe / 4 - yoe / 100 + doy) - 719468
           + 719468 - era * 146097)
    with (yoe * 365 + yoe / 4 - yoe / 100 + doy) by lia.
  rewrite E2.
  replace (yoe * 365 + yoe / 4 - yoe / 100 + doy - (365 * yoe + yoe / 4 - yoe / 100))
    with doy by lia.
  reflexivity.
Qed.

Ltac month_index doy :=
  let try_k k :=
    assert ((5 * doy + 2) / 153 = k) as -> by (Z.div_mod_to_equations; lia) in
  first [ try_k 0 | try_k 1 | try_k 2 | try_k 3 | try_k 4 | try_k 5
        | try_k 6 | try_k 7 | try_k 8 | try_k 9 | try_k 10 | try_k 11 ].

(** The calendar date of the day number of a calendar date is that date. *)
Lemma civil_roundtrip (y m d : Z) :
  1 <= m <= 12 -> 1 <= d <= daysInMonth y m ->
  civil_from_days (days_from_civil y m d) = (y, m, d).
Proof.
  intros Hm Hd.
  assert (Hcase : m = 1 \/ m = 2 \/ m = 3 \/ m = 4 \/ m = 5 \/ m = 6 \/ m = 7
          \/ m = 8 \/ m = 9 \/ m = 10 \/ m = 11 \/ m = 12) by lia.
  clear Hm. unfold days_from_civil. cbv zeta.
  assert (Hleap : isLeapYear y = true ->
            y mod 4 = 0 /\ (y mod 100 <> 0 \/ y mod 400 = 0)).
  { unfold isLeapYear. intros H. apply orb_prop in H as [H|H].
    - apply andb_prop in H as [H1 H2]. apply Z.eqb_eq in H1.
      apply negb_true_iff, Z.eqb_neq in H2. auto.
    - apply Z.eqb_eq in H. split; [|auto]. Z.div_mod_to_equations; lia. }
  unfold daysInMonth in Hd.
  repeat (destruct Hcase as [->|Hcase]); [..|subst m];
    cbn [Z.eqb Z.leb Z.ltb Z.compare Pos.compare Pos.compare_cont orb Pos.eqb] in Hd |- *;
    try (destruct (isLeapYear y); [specialize (Hleap eq_refl)|clear Hleap]);
    (rewrite civil_of_era; [| Z.div_mod_to_equations; lia ..]);
    cbv zeta;
    match goal with
    | |- context [(5 * ?doy + 2) / 153] => month_index doy
    end;
    repeat match goal with
      | |- context [if (?a <? ?b) then _ else _] => destruct (Z.ltb_spec a b)
      | |- context [if (?a <=? ?b) then _ else _] => destruct (Z.leb_spec a b)
      end;
    rewrite !pair_equal_spec; repeat split; Z.div_mod_to_equations; lia.
Qed.

End CalendarFacts.

(** ** The date of the form, there and back *)

Section FormDate.
Import JS RealEstateTransactionForm.
Local Open Scope Z_scope.

Lemma digit_char (k : Z) :
  0 <= k <= 9 -> digit (Ascii.ascii_of_N (Z.to_N (48 + k))) = Some k.
Proof.
  intros H.
  assert (k = 0 \/ k = 1 \/ k = 2 \/ k = 3 \/ k = 4 \/ k = 5 \/ k = 6
          \/ k = 7 \/ k = 8 \/ k = 9) as Hk by lia.
  repeat (destruct Hk as [->|Hk]); try subst k; reflexivity.
Qed.

Lemma digit_char_not_T (k : Z) :
  0 <= k <= 9 -> Ascii.eqb (Ascii.ascii_of_N (Z.to_N (48 + k))) "T" = false.
Proof.
  intros H.
  assert (k = 0 \/ k = 1 \/ k = 2 \/ k = 3 \/ k = 4 \/ k = 5 \/ k = 6
          \/ k = 7 \/ k = 8 \/ k = 9) as Hk by lia.
  repeat (destruct Hk as [->|Hk]); try subst k; reflexivity.
Qed.

Lemma pad_app (n : nat) : forall v acc, pad n v acc = pad n v [] ++ acc.
Proof.
  induction n as [|n IH]; intros v acc; simpl; [reflexivity|].
  rewrite (IH _ (_ :: acc)), (IH _ [_]), <- app_assoc. reflexivity.
Qed.

Lemma pad_S (n : nat) v :
  pad (S n) v [] = pad n (v / 10) [] ++ [Ascii.ascii_of_N (Z.to_N (48 + v mod 10))].
Proof. simpl. apply pad_app. Qed.

(** Reading one more digit reads the digits before it first. *)
Lemma digits_S (n : nat) : forall acc cs,
  digits (S n) acc cs
  = match digits n acc cs with
    | Some (acc', c :: cs') =>
        match digit c with
        | Some v => Some (10 * acc' + v, cs')
        | None => None
        end
    | _ => None
    end.
Proof.
  induction n as [|n IH]; intros acc cs.
  - simpl. destruct cs as [|c cs]; [reflexivity|].
    destruct (digit c); reflexivity.
  - change (digits (S (S n)) acc cs)
      with (match cs with
            | c :: cs' => v ← digit c; digits (S n) (10 * acc + v) cs'
            | [] => None
            end).
    destruct cs as [|c cs]; [reflexivity|].
    change (digits (S n) acc (c :: cs))
      with (v ← digit c; digits n (10 * acc + v) cs).
    destruct (digit c) as [v|]; simpl; [|reflexivity].
    apply IH.
Qed.

(** The reader reads back what [pad] prints. *)
Lemma digits_pad (n : nat) : forall v acc rest,
  0 <= v ->
  digits n acc (pad n v [] ++ rest)
  = Some (acc * 10 ^ Z.of_nat n + v mod 10 ^ Z.of_nat n, rest).
Proof.
  induction n as [|n IH]; intros v acc rest Hv.
  - simpl. rewrite Z.mod_1_r. do 2 f_equal. lia.
  - rewrite digits_S, pad_S, <- app_assoc. simpl app.
    rewrite IH by (apply Z.div_pos; lia).
    rewrite digit_char by (pose proof (Z.mod_pos_bound v 10); lia).
    do 2 f_equal.
    rewrite Nat2Z.inj_succ, Z.pow_succ_r by lia.
    rewrite (Z.rem_mul_r v 10 (10 ^ Z.of_nat n)) by lia. lia.
Qed.

Lemma pad_no_T (n : nat) : forall v,
  0 <= v -> Forall (fun c => Ascii.eqb c "T" = false) (pad n v []).
Proof.
  induction n as [|n IH]; intros v Hv; [constructor|].
  rewrite pad_S. apply Forall_app. split.
  - apply IH, Z.div_pos; lia.
  - repeat constructor. apply digit_char_not_T.
    pose proof (Z.mod_pos_bound v 10). lia.
Qed.

Lemma beforeT_app (l rest : list ascii) :
  Forall (fun c => Ascii.eqb c "T" = false) l ->
  beforeT (l ++ "T"%char :: rest) = l.
Proof.
  induction 1 as [|c l Hc Hl IH]; simpl; [reflexivity|].
  rewrite Hc, IH. reflexivity.
Qed.

Lemma list_ascii_of_string_app (s1 s2 : string) :
  list_ascii_of_string (s1 ++ s2)%string
  = list_ascii_of_string s1 ++ list_ascii_of_string s2.
Proof.
  induction s1 as [|c s1 IH]; simpl; [reflexivity|]. f_equal. exact IH.
Qed.

Lemma string_of_list_ascii_app (l1 l2 : list ascii) :
  string_of_list_ascii (l1 ++ l2)
  = (string_of_list_ascii l1 ++ string_of_list_ascii l2)%string.
Proof.
  induction l1 as [|c l1 IH]; simpl; [reflexivity|]. rewrite IH. reflexivity.
Qed.

Lemma days_from_civil_bounds y m d :
  0 <= y <= 9999 -> 1 <= m <= 12 -> 1 <= d <= 31 ->
  -719528 <= days_from_civil y m d <= 2932896.
Proof.
  intros Hy Hm Hd. unfold days_from_civil.
  destruct (Z.leb_spec m 2), (Z.ltb_spec 2 m); try lia;
    Z.div_mod_to_equations; lia.
Qed.

Lemma daysInMonth_le_31 y m : daysInMonth y m <= 31.
Proof.
  unfold daysInMonth.
  destruct (m =? 2); [destruct (isLeapYear y); lia|].
  destruct (_ || _); lia.
Qed.

Section ValidDate.
Variables y m d : Z.
Hypothesis Hy : 0 <= y <= 9999.
Hypothesis Hm : 1 <= m <= 12.
Hypothesis Hd : 1 <= d <= daysInMonth y m.

(** The reader reads a printed date back. *)
Lemma isoCalendarDate_dateValue rest :
  isoCalendarDate
    (pad 4 y [] ++ "-"%char :: pad 2 m [] ++ "-"%char :: pad 2 d [] ++ rest)
  = Some (days_from_civil y m d, rest).
Proof.
  pose proof (daysInMonth_le_31 y m).
  unfold isoCalendarDate.
  rewrite digits_pad by lia. cbn [mbind option_bind expect].
  change (Ascii.eqb "-" "-") with true. cbn [mbind option_bind expect].
  rewrite digits_pad by lia. cbn [mbind option_bind expect].
  change (Ascii.eqb "-" "-") with true. cbn [mbind option_bind expect].
  rewrite digits_pad by lia. cbn [mbind option_bind].
  change (Z.of_nat 4) with 4. change (Z.of_nat 2) with 2.
  rewrite !Z.mul_0_l, !Z.add_0_l.
  rewrite (Z.mod_small y), (Z.mod_small m), (Z.mod_small d) by lia.
  replace ((1 <=? m) && (m <=? 12) && (1 <=? d) && (d <=? daysInMonth y m))
    with true; [reflexivity|].
  symmetry. rewrite !andb_true_iff, !Z.leb_le. lia.
Qed.

Lemma dateValue_chars :
  list_ascii_of_string (dateValue y m d)
  = pad 4 y [] ++ "-"%char :: pad 2 m [] ++ "-"%char :: pad 2 d [].
Proof. apply list_ascii_of_string_of_list_ascii. Qed.

(** The value of the date input denotes midnight UTC of its day. *)
Lemma isoDate_dateValue :
  isoDate (dateValue y m d) = TimeValue (MakeDate (days_from_civil y m d) 0).
Proof.
  pose proof (daysInMonth_le_31 y m).
  pose proof (days_from_civil_bounds y m d Hy Hm ltac:(lia)).
  unfold isoDate, isoTimeValue. rewrite dateValue_chars.
  rewrite <- (app_nil_r (pad 2 d [])), isoCalendarDate_dateValue.
  cbn [mbind option_bind]. unfold TimeClip, MakeDate, msPerDay.
  rewrite (proj2 (Z.leb_le _ _)) by lia. reflexivity.
Qed.

(** With the suffix of the form it denotes noon UTC of that day. *)
Lemma isoDate_dateValue_noon :
  isoDate (dateValue y m d ++ "T12:00:00.000Z")%string
  = TimeValue (MakeDate (days_from_civil y m d) 43200000).
Proof.
  pose proof (daysInMonth_le_31 y m).
  pose proof (days_from_civil_bounds y m d Hy Hm ltac:(lia)).
  unfold isoDate, isoTimeValue.
  rewrite list_ascii_of_string_app, dateValue_chars.
  rewrite <- !app_assoc. cbn [app].
  rewrite <- !app_assoc. cbn [app].
  rewrite isoCalendarDate_dateValue.
  change (TimeClip (MakeDate (days_from_civil y m d) 43200000)
          = TimeValue (MakeDate (days_from_civil y m d) 43200000)).
  unfold TimeClip, MakeDate, msPerDay.
  rewrite (proj2 (Z.leb_le _ _)) by lia. reflexivity.
Qed.


(** Noon of a day prints as the value of the date input followed by the
    suffix of the form. *)
Lemma toISOString_noon_dateValue :
  toISOString (TimeValue (MakeDate (days_from_civil y m d) 43200000))
  = Some (dateValue y m d ++ "T12:00:00.000Z")%string.
Proof.
  unfold toISOString.
  replace (Day (MakeDate (days_from_civil y m d) 43200000))
    with (days_from_civil y m d)
    by (unfold Day, MakeDate, msPerDay; Z.div_mod_to_equations; lia).
  replace (TimeWithinDay (MakeDate (days_from_civil y m d) 43200000))
    with 43200000
    by (unfold TimeWithinDay, MakeDate, msPerDay; Z.div_mod_to_equations; lia).
  rewrite civil_roundtrip by assumption.
  replace ((0 <=? y) && (y <=? 9999)) with true
    by (symmetry; rewrite andb_true_iff, !Z.leb_le; lia).
  reflexivity.
Qed.

Lemma dateValue_truthy : ToBoolean_string (dateValue y m d) = true.
Proof. reflexivity. Qed.

Lemma fullDateTime_dateValue :
  RealEstateTransactionModal.fullDateTime isoDate (dateValue y m d)
  = Some (dateValue y m d ++ "T12:00:00.000Z")%string.
Proof.
  unfold RealEstateTransactionModal.fullDateTime.
  rewrite isoDate_dateValue_noon.
  apply toISOString_noon_dateValue.
Qed.

Lemma formDate_fullDateTime today :
  formDate today (Some (dateValue y m d ++ "T12:00:00.000Z")%string)
  = dateValue y m d.
Proof.
  unfold formDate.
  change (ToBoolean_string (dateValue y m d ++ "T12:00:00.000Z")) with true.
  cbn iota.
  rewrite list_ascii_of_string_app, dateValue_chars.
  change (list_ascii_of_string "T12:00:00.000Z")
    with ("T"%char :: list_ascii_of_string "12:00:00.000Z").
  rewrite beforeT_app; [reflexivity|].
  apply Forall_app; split; [apply pad_no_T; lia|].
  constructor; [reflexivity|].
  apply Forall_app; split; [apply pad_no_T; lia|].
  constructor; [reflexivity|]. apply pad_no_T; lia.
Qed.



(** X12. The date picked in the form survives the trip to the backend and back:
    [handleSubmit] sends the picked date with [T12:00:00.000Z] appended,
    and when that timestamp comes back in a transaction to edit, the form
    shows the picked date again. *)
Theorem form_date_round_trip :
  forall today : string,
    RealEstateTransactionModal.fullDateTime isoDate (dateValue y m d)
      = Some (dateValue y m d ++ "T12:00:00.000Z")%string
    /\ formDate today
         (RealEstateTransactionModal.fullDateTime isoDate (dateValue y m d))
       = dateValue y m d.
Proof.
  intros today. rewrite fullDateTime_dateValue. split; [reflexivity|].
  apply formDate_fullDateTime.
Qed.

(** X13. A transaction created through the form for a day is listed when that
    day is the [from] date, and is not listed when that day is the [to]
    date (alone or together with the same [from] date). *)
Theorem form_entry_and_its_own_day :
  forall (l : list PropertyDetail.ModelsRealEstateTransaction)
         (t : PropertyDetail.ModelsRealEstateTransaction),
    PropertyDetail.transaction_date t
      = RealEstateTransactionModal.fullDateTime isoDate (dateValue y m d) ->
    PropertyDetail.inDateRange isoDate
      {| PropertyDetail.transactions := l;
         PropertyDetail.filterFromDate := dateValue y m d;
         PropertyDetail.filterToDate := "" |} t = true
    /\ PropertyDetail.inDateRange isoDate
         {| PropertyDetail.transactions := l;
            PropertyDetail.filterFromDate := "";
            PropertyDetail.filterToDate := dateValue y m d |} t = false
    /\ PropertyDetail.inDateRange isoDate
         {| PropertyDetail.transactions := l;
            PropertyDetail.filterFromDate := dateValue y m d;
            PropertyDetail.filterToDate := dateValue y m d |} t = false.
Proof.
  intros l t Ht. rewrite fullDateTime_dateValue in Ht.
  assert (Hnoon := isoDate_dateValue_noon).
  assert (Hday := isoDate_dateValue).
  assert (Hfrom : PropertyDetail.inDateRange isoDate
            {| PropertyDetail.transactions := l;
               PropertyDetail.filterFromDate := dateValue y m d;
               PropertyDetail.filterToDate := "" |} t = true).
  { apply (inDateRange_from_midnight isoDate _ t _ (days_from_civil y m d) 43200000 Ht).
    - apply eq_refl.
    - exact Hnoon.
    - lia.
    - apply eq_refl.
    - exact Hday.
    - apply eq_refl. }
  assert (Hto : forall l',
            PropertyDetail.inDateRange isoDate
              {| PropertyDetail.transactions := l';
                 PropertyDetail.filterFromDate := "";
                 PropertyDetail.filterToDate := dateValue y m d |} t = false).
  { intros l'.
    apply (inDateRange_to_midnight isoDate _ t _ (days_from_civil y m d) 43200000 Ht).
    - apply eq_refl.
    - exact Hnoon.
    - lia.
    - apply eq_refl.
    - apply eq_refl.
    - exact Hday. }
  repeat split; [exact Hfrom|apply Hto|].
  rewrite inDateRange_split, Hto. apply andb_false_r.
Qed.

End ValidDate.

End FormDate.

Lemma form_date_round_trip_witness :
  RealEstateTransactionForm.formDate "2024-02-02"
    (RealEstateTransactionModal.fullDateTime JS.isoDate
       (RealEstateTransactionForm.dateValue 2024 1 31))
  = RealEstateTransactionForm.dateValue 2024 1 31.
Proof.
  refine (proj2 (form_date_round_trip 2024 1 31 _ _ _ "2024-02-02"%string)).
  - lia.
  - lia.
  - change (JS.daysInMonth 2024 1) with 31%Z. lia.
Defined.

Lemma form_entry_and_its_own_day_witness :
  PropertyDetail.inDateRange JS.isoDate
    (Scenario.page [Scenario.rent_jan31] ""
       (RealEstateTransactionForm.dateValue 2024 1 31))
    Scenario.rent_jan31 = false.
Proof.
  refine (proj1 (proj2 (form_entry_and_its_own_day 2024 1 31 _ _ _
                          [Scenario.rent_jan31] Scenario.rent_jan31 _))).
  - lia.
  - lia.
  - change (JS.daysInMonth 2024 1) with 31%Z. lia.
  - reflexivity.
Defined.
